(** * PintarAI: note generation, quiz parsing and quiz scoring

    A shallow embedding of the note and quiz pipeline of the PintarAI study
    assistant together with the properties the specification states about
    it: the two-step note generation and the quiz generation of
    services/geminiService.ts, and the quiz score of pages/NoteDetailPage.tsx
    (in its two revisions) and of the chat bubble.

    Conventions of the embedding:
    - a JavaScript string is the list of its UTF-16 code units ([jsstring]);
    - a JavaScript number is an IEEE-754 binary64 value (primitive floats),
      loop counters being kept as natural numbers and converted where the
      source divides them;
    - [try]/[catch] is made explicit through [Completion];
    - the hosted model, the json5 package, the key stores and the clock are
      collaborators gathered in the record [Env]. *)

From Stdlib Require Import ZArith Strings.String Strings.Ascii Numbers.DecimalString.
From Stdlib Require Import Floats.PrimFloat Floats.SpecFloat Floats.FloatOps.
From Stdlib Require Import Numbers.Cyclic.Int63.Uint63.
From stdpp Require Import gmap list.

Local Open Scope Z_scope.

(** ** JavaScript values shared by the services and the pages *)

Module JS.

(** A string is a sequence of UTF-16 code units. *)
Definition jsstring : Type := list N.

(** Literals of this development are ASCII, so that a byte is a code unit. *)
Definition str (s : string) : jsstring :=
  List.map N_of_ascii (list_ascii_of_string s).

(** The double quote, kept apart from the literals. *)
Definition dq : jsstring := [34%N].

(** [s.length] *)
Definition length_ (s : jsstring) : N := N.of_nat (length s).

(** Truthiness of a string: every string but the empty one. *)
Definition truthy_string (s : jsstring) : bool :=
  match s with [] => false | _ :: _ => true end.

(** LineTerminator of ECMAScript: LF, CR, LS, PS. The pattern character [.]
    (without the [s] flag) matches every code unit but these. *)
Definition isLineTerminator (c : N) : bool :=
  ((c =? 10) || (c =? 13) || (c =? 8232) || (c =? 8233))%N.

(** WhiteSpace and LineTerminator of ECMAScript: the class [\s] of a pattern
    and the code units [String.prototype.trim] removes. *)
Definition isWhiteSpace (c : N) : bool :=
  ((c =? 9) || (c =? 10) || (c =? 11) || (c =? 12) || (c =? 13) || (c =? 32)
   || (c =? 160) || (c =? 5760) || ((8192 <=? c) && (c <=? 8202))
   || (c =? 8232) || (c =? 8233) || (c =? 8239) || (c =? 8287)
   || (c =? 12288) || (c =? 65279))%N.

Fixpoint dropWhile {A} (p : A -> bool) (l : list A) : list A :=
  match l with
  | [] => []
  | x :: l' => if p x then dropWhile p l' else l
  end.

Fixpoint takeWhile {A} (p : A -> bool) (l : list A) : list A :=
  match l with
  | [] => []
  | x :: l' => if p x then x :: takeWhile p l' else []
  end.

(** [s.trim()] *)
Definition trim (s : jsstring) : jsstring :=
  rev (dropWhile isWhiteSpace (rev (dropWhile isWhiteSpace s))).

(** [s.slice(0, n)] for a non-negative [n]. *)
Definition slice0 (n : N) (s : jsstring) : jsstring := take (N.to_nat n) s.

Fixpoint startsWith (p s : jsstring) : bool :=
  match p, s with
  | [], _ => true
  | _ :: _, [] => false
  | a :: p', b :: s' => (a =? b)%N && startsWith p' s'
  end.

(** [s.includes(p)] *)
Fixpoint includes (p s : jsstring) : bool :=
  startsWith p s || match s with [] => false | _ :: s' => includes p s' end.

(** The lines of a template literal, a line feed between two of them. *)
Fixpoint join_lines (ls : list jsstring) : jsstring :=
  match ls with
  | [] => []
  | [l] => l
  | l :: ls' => l ++ 10%N :: join_lines ls'
  end.

(** *** Numbers *)

(** The result of [Math.round], and of the functions that return it: an
    integral value, an infinity or NaN. *)
Inductive Integral : Type :=
  | NaN
  | Infinity (negative : bool)
  | Int (n : Z).

Definition Integral_eqb (a b : Integral) : bool :=
  match a, b with
  | NaN, NaN => true
  | Infinity s, Infinity s' => Bool.eqb s s'
  | Int n, Int n' => (n =? n')%Z
  | _, _ => false
  end.

(** A counter of a loop as a binary64 value; exact below 2^53, which bounds
    every array length. *)
Definition double_of_nat (n : nat) : float :=
  PrimFloat.of_uint63 (Uint63.of_Z (Z.of_nat n)).

(** [Math.round(x)]: the integer nearest to [x], a tie going up. The value of
    a finite binary64 is [m * 2^e], taken exactly. *)
Definition Math_round (x : float) : Integral :=
  match Prim2SF x with
  | S754_nan => NaN
  | S754_infinity s => Infinity s
  | S754_zero _ => Int 0
  | S754_finite s m e =>
      let v := if s then Z.neg m else Z.pos m in
      match e with
      | Z0 => Int v
      | Z.pos p => Int (v * 2 ^ Z.pos p)
      | Z.neg p => Int ((2 * v + 2 ^ Z.pos p) / (2 * 2 ^ Z.pos p))
      end
  end.

(** [Math.round((c / t) * 100)] on two counters. *)
Definition round_percentage (c t : nat) : Integral :=
  Math_round (PrimFloat.mul (PrimFloat.div (double_of_nat c) (double_of_nat t))
                            (double_of_nat 100)).

End JS.

Import JS.

(** ** The quiz score: pages/NoteDetailPage.tsx and the chat bubble *)

Module NoteDetailPage.

(** [QuizQuestion] of types.ts. [type] and [options] are optional since the
    revision that knows essay questions; an entry of an older note has no
    [type]. *)
Inductive QuestionType : Type := mcq | essay.

#[global] Instance QuestionType_eq_dec : EqDecision QuestionType.
Proof. solve_decision. Defined.

Record QuizQuestion : Type := {
  type : option QuestionType;
  question : jsstring;
  options : option (list jsstring);
  answer : jsstring;
  explanation : jsstring
}.

(** [quizAnswers[idx] === q.answer]; an absent key reads [undefined], which
    is no string. *)
Definition answeredCorrectly (quizAnswers : gmap nat jsstring) (idx : nat)
    (q : QuizQuestion) : bool :=
  bool_decide (quizAnswers !! idx = Some (answer q)).

(** The body of [note.quiz.forEach((q, idx) => ...)], threading [correct]. *)
Fixpoint forEach_correct (quizAnswers : gmap nat jsstring)
    (quiz : list QuizQuestion) (idx correct : nat) : nat :=
  match quiz with
  | [] => correct
  | q :: rest =>
      forEach_correct quizAnswers rest (S idx)
        (if answeredCorrectly quizAnswers idx q then S correct else correct)
  end.

(** [calculateScore] of pages/NoteDetailPage.tsx, with [note.quiz] and
    [quizAnswers] as arguments. *)
Definition calculateScore (note_quiz : option (list QuizQuestion))
    (quizAnswers : gmap nat jsstring) : Integral :=
  match note_quiz with
  | None => Int 0
  | Some quiz =>
      round_percentage (forEach_correct quizAnswers quiz 0 0) (length quiz)
  end.

(** The test of the scoring loop in the revision of the page that shows
    essay questions, [q.type === 'mcq' || (!q.type && q.options)]: an
    untagged entry of an older note counts when it has an options array
    (any array is truthy). *)
Definition isMCQ (q : QuizQuestion) : bool :=
  match type q with
  | Some mcq => true
  | Some essay => false
  | None => match options q with Some _ => true | None => false end
  end.

(** [calculateScore] in that revision. *)
Module EssayRevision.

(** The body of [note.quiz.forEach((q, idx) => ...)], threading [correct]
    and [totalMCQ]. *)
Fixpoint forEach_score (quizAnswers : gmap nat jsstring)
    (quiz : list QuizQuestion) (idx correct totalMCQ : nat) : nat * nat :=
  match quiz with
  | [] => (correct, totalMCQ)
  | q :: rest =>
      if isMCQ q then
        forEach_score quizAnswers rest (S idx)
          (if answeredCorrectly quizAnswers idx q then S correct else correct)
          (S totalMCQ)
      else forEach_score quizAnswers rest (S idx) correct totalMCQ
  end.

Definition calculateScore (note_quiz : option (list QuizQuestion))
    (quizAnswers : gmap nat jsstring) : Integral :=
  match note_quiz with
  | None => Int 0
  | Some quiz =>
      let '(correct, totalMCQ) := forEach_score quizAnswers quiz 0 0 0 in
      if (totalMCQ =? 0)%nat then Int 0 else round_percentage correct totalMCQ
  end.

End EssayRevision.

(** *** What the specification calls the score *)

(** The multiple-choice entries with the answer submitted for each: the
    answers are keyed by the position of the entry in the whole quiz. *)
Fixpoint mcqSubmissions (quizAnswers : gmap nat jsstring)
    (quiz : list QuizQuestion) (idx : nat)
  : list (QuizQuestion * option jsstring) :=
  match quiz with
  | [] => []
  | q :: rest =>
      if isMCQ q then (q, quizAnswers !! idx) :: mcqSubmissions quizAnswers rest (S idx)
      else mcqSubmissions quizAnswers rest (S idx)
  end.

Definition multipleChoiceCount (quiz : list QuizQuestion) : nat :=
  length (filter (fun q => isMCQ q = true) quiz).

Definition isCorrect (qa : QuizQuestion * option jsstring) : Prop :=
  qa.2 = Some (answer qa.1).

#[global] Instance isCorrect_dec qa : Decision (isCorrect qa).
Proof. unfold isCorrect. apply _. Defined.

Definition correctCount (quizAnswers : gmap nat jsstring)
    (quiz : list QuizQuestion) : nat :=
  length (filter isCorrect (mcqSubmissions quizAnswers quiz 0)).

(** [round(n / d)] over the rationals, a tie going up, for [0 < d]. *)
Definition round_div (n d : Z) : Z := (2 * n + d) / (2 * d).

(** [score(quiz, answers)] in the words of the specification:
    [round(100 * correctCount / multipleChoiceCount)], and [0] without a
    multiple-choice entry. *)
Definition specified_score (quiz : list QuizQuestion)
    (quizAnswers : gmap nat jsstring) : Integral :=
  if (multipleChoiceCount quiz =? 0)%nat then Int 0
  else Int (round_div (100 * Z.of_nat (correctCount quizAnswers quiz))
                      (Z.of_nat (multipleChoiceCount quiz))).

(** The score as a function of the submissions alone. *)
Definition score_of_submissions (subs : list (QuizQuestion * option jsstring))
  : Integral :=
  if (length subs =? 0)%nat then Int 0
  else round_percentage (length (filter isCorrect subs)) (length subs).

(** Whether the binary64 percentage of every [c] right answers out of
    [t <= n] scored entries is the exact rounded quotient. *)
Definition percentages_exact_upto (n : nat) : bool :=
  forallb (fun t =>
    forallb (fun c =>
      Integral_eqb (round_percentage c t)
                   (Int (round_div (100 * Z.of_nat c) (Z.of_nat t))))
      (seq 0 (S t)))
    (seq 1 n).

(** The answers re-keyed for an entry inserted at position [k]: what was
    submitted at a position from [k] on moves one position up. *)
Definition shift_key (k i : nat) : nat := if bool_decide (i < k)%nat then i else S i.

#[global] Instance shift_key_inj k : Inj (=) (=) (shift_key k).
Proof.
  intros i j. unfold shift_key. repeat case_bool_decide; lia.
Qed.

Definition shift_answers (k : nat) (quizAnswers : gmap nat jsstring)
  : gmap nat jsstring :=
  kmap (shift_key k) quizAnswers.

End NoteDetailPage.

(** [score] of [QuizView], the quiz of a chat message: the quiz is always
    there, and every entry is scored. *)
Module ChatBubble.

Import NoteDetailPage.

Definition score (quiz : list QuizQuestion) (answers : gmap nat jsstring)
  : Integral :=
  round_percentage (forEach_correct answers quiz 0 0) (length quiz).

End ChatBubble.

(** ** Values produced by the JSON reader *)

Module Json.

(** What [JSON5.parse] can return, and [undefined] for an absent property. *)
#[warnings="-register-all"]
Inductive JSValue : Type :=
  | JUndefined
  | JNull
  | JBool (b : bool)
  | JNum (x : float)
  | JStr (s : jsstring)
  | JArr (items : list JSValue)
  | JObj (props : list (jsstring * JSValue)).

(** ToBoolean *)
Definition truthy (v : JSValue) : bool :=
  match v with
  | JUndefined | JNull => false
  | JBool b => b
  | JNum x => negb (PrimFloat.eqb x 0%float || negb (PrimFloat.eqb x x))
  | JStr s => truthy_string s
  | JArr _ | JObj _ => true
  end.

(** Own properties are kept as an association list with one entry per key;
    the properties below read them by key, never in enumeration order. *)
Fixpoint get_prop (k : jsstring) (ps : list (jsstring * JSValue)) : option JSValue :=
  match ps with
  | [] => None
  | (k', v) :: ps' => if bool_decide (k' = k) then Some v else get_prop k ps'
  end.

(** Writing a property: an existing key keeps its place and takes the new
    value, a new key goes last. *)
Fixpoint set_prop (k : jsstring) (v : JSValue) (ps : list (jsstring * JSValue))
  : list (jsstring * JSValue) :=
  match ps with
  | [] => [(k, v)]
  | (k', v') :: ps' =>
      if bool_decide (k' = k) then (k, v) :: ps' else (k', v') :: set_prop k v ps'
  end.

(** The decimal spelling of an array index, as a property key. *)
Definition index_key (i : nat) : jsstring :=
  str (NilEmpty.string_of_uint (Nat.to_uint i)).

(** The own enumerable properties an object spread [{...q}] copies: those of
    an object, the indexed elements of an array, the indexed code units of a
    string, and nothing of any other value. *)
Definition spread_props (q : JSValue) : list (jsstring * JSValue) :=
  match q with
  | JObj ps => ps
  | JArr items => imap (fun i v => (index_key i, v)) items
  | JStr s => imap (fun i c => (index_key i, JStr [c])) s
  | _ => []
  end.

(** *** A reader for the JSON fragment of JSON5

    Strings in double quotes with the JSON escapes, integers, the three
    literals, arrays and objects, white space between tokens and a trailing
    comma in arrays and objects. It stands for [JSON5.parse] in the worked
    examples; the properties below hold for every reader. *)

Definition hexDigit (c : N) : option N :=
  if ((48 <=? c) && (c <=? 57))%N then Some (c - 48)%N
  else if ((65 <=? c) && (c <=? 70))%N then Some (c - 55)%N
  else if ((97 <=? c) && (c <=? 102))%N then Some (c - 87)%N
  else None.

Definition isDigit (c : N) : bool := ((48 <=? c) && (c <=? 57))%N.

(** The characters after the opening quote of a string, up to its closing
    quote: the decoded string and the rest of the input. *)
Fixpoint read_string (s : jsstring) (acc : jsstring) : option (jsstring * jsstring) :=
  match s with
  | [] => None
  | c :: r =>
      if (c =? 34)%N then Some (rev acc, r)
      else if (c =? 92)%N then
        match r with
        | [] => None
        | e :: r' =>
            if (e =? 34)%N then read_string r' (34%N :: acc)
            else if (e =? 92)%N then read_string r' (92%N :: acc)
            else if (e =? 47)%N then read_string r' (47%N :: acc)
            else if (e =? 98)%N then read_string r' (8%N :: acc)
            else if (e =? 102)%N then read_string r' (12%N :: acc)
            else if (e =? 110)%N then read_string r' (10%N :: acc)
            else if (e =? 114)%N then read_string r' (13%N :: acc)
            else if (e =? 116)%N then read_string r' (9%N :: acc)
            else if (e =? 117)%N then
              match r' with
              | h1 :: h2 :: h3 :: h4 :: r'' =>
                  match hexDigit h1, hexDigit h2, hexDigit h3, hexDigit h4 with
                  | Some d1, Some d2, Some d3, Some d4 =>
                      read_string r'' ((((d1 * 16 + d2) * 16 + d3) * 16 + d4)%N :: acc)
                  | _, _, _, _ => None
                  end
              | _ => None
              end
            else None
        end
      else if (c <? 32)%N then None
      else read_string r (c :: acc)
  end.

Fixpoint read_digits (s : jsstring) (acc : Z) : Z * jsstring :=
  match s with
  | c :: r => if isDigit c then read_digits r (10 * acc + Z.of_N (c - 48)) else (acc, s)
  | [] => (acc, [])
  end.

Definition double_of_Z (z : Z) : float :=
  if (z <? 0)%Z then PrimFloat.opp (PrimFloat.of_uint63 (Uint63.of_Z (- z)))
  else PrimFloat.of_uint63 (Uint63.of_Z z).

(** An integer literal; a fraction or an exponent after it is refused. *)
Definition read_number (s : jsstring) : option (JSValue * jsstring) :=
  let '(negative, ds) :=
    match s with
    | 45%N :: r => (true, r)
    | _ => (false, s)
    end in
  match ds with
  | d :: _ =>
      if isDigit d then
        let '(n, rest) := read_digits ds 0 in
        match rest with
        | c :: _ =>
            if ((c =? 46) || (c =? 101) || (c =? 69))%N then None
            else Some (JNum (double_of_Z (if negative then - n else n)), rest)
        | [] => Some (JNum (double_of_Z (if negative then - n else n)), rest)
        end
      else None
  | [] => None
  end.

Definition read_literal (s : jsstring) : option (JSValue * jsstring) :=
  if startsWith (str "true") s then Some (JBool true, drop 4 s)
  else if startsWith (str "false") s then Some (JBool false, drop 5 s)
  else if startsWith (str "null") s then Some (JNull, drop 4 s)
  else None.

Fixpoint read_value (fuel : nat) (s : jsstring) : option (JSValue * jsstring) :=
  match fuel with
  | O => None
  | S fuel' =>
      match dropWhile isWhiteSpace s with
      | [] => None
      | c :: r =>
          if (c =? 34)%N then
            match read_string r [] with
            | Some (t, rest) => Some (JStr t, rest)
            | None => None
            end
          else if (c =? 91)%N then read_elements fuel' r []
          else if (c =? 123)%N then read_members fuel' r []
          else if (c =? 45)%N || isDigit c then read_number (c :: r)
          else read_literal (c :: r)
      end
  end

with read_elements (fuel : nat) (s : jsstring) (acc : list JSValue)
  : option (JSValue * jsstring) :=
  match fuel with
  | O => None
  | S fuel' =>
      match dropWhile isWhiteSpace s with
      | [] => None
      | c :: r =>
          if (c =? 93)%N then Some (JArr (rev acc), r)
          else
            match read_value fuel' (c :: r) with
            | None => None
            | Some (v, rest) =>
                match dropWhile isWhiteSpace rest with
                | c' :: r' =>
                    if (c' =? 44)%N then read_elements fuel' r' (v :: acc)
                    else if (c' =? 93)%N then Some (JArr (rev (v :: acc)), r')
                    else None
                | [] => None
                end
            end
      end
  end

with read_members (fuel : nat) (s : jsstring) (acc : list (jsstring * JSValue))
  : option (JSValue * jsstring) :=
  match fuel with
  | O => None
  | S fuel' =>
      match dropWhile isWhiteSpace s with
      | [] => None
      | c :: r =>
          if (c =? 125)%N then Some (JObj acc, r)
          else if (c =? 34)%N then
            match read_string r [] with
            | None => None
            | Some (k, rest) =>
                match dropWhile isWhiteSpace rest with
                | c1 :: r1 =>
                    if (c1 =? 58)%N then
                      match read_value fuel' r1 with
                      | None => None
                      | Some (v, rest') =>
                          match dropWhile isWhiteSpace rest' with
                          | c' :: r' =>
                              if (c' =? 44)%N then read_members fuel' r' (set_prop k v acc)
                              else if (c' =? 125)%N then Some (JObj (set_prop k v acc), r')
                              else None
                          | [] => None
                          end
                      end
                    else None
                | [] => None
                end
            end
          else None
      end
  end.

(** The whole text must be one value. *)
Definition read_json (s : jsstring) : option JSValue :=
  match read_value (2 * length s + 2) s with
  | Some (v, rest) =>
      match dropWhile isWhiteSpace rest with
      | [] => Some v
      | _ :: _ => None
      end
  | None => None
  end.

End Json.

Import Json.

(** ** services/geminiService.ts: note generation in two steps *)

Module GeminiService.

(** *** Exceptions *)

Inductive JSError : Type :=
  | SyntaxError
  | TypeError
  | Error (message : jsstring)
  | Rejected.

(** The outcome of a block: a value, or an exception on its way out. *)
Inductive Completion (A : Type) : Type :=
  | Return (a : A)
  | Throw (e : JSError).

Arguments Return {A} a.
Arguments Throw {A} e.

Definition bind {A B} (c : Completion A) (k : A -> Completion B) : Completion B :=
  match c with
  | Return a => k a
  | Throw e => Throw e
  end.

(** [try { c } catch (e) { handler e }] *)
Definition try_catch {A} (c : Completion A) (handler : JSError -> Completion A)
  : Completion A :=
  match c with
  | Return a => Return a
  | Throw e => handler e
  end.

Notation "'let*' x := c 'in' k" := (bind c (fun x => k))
  (at level 10, x name, c at level 100, k at level 200).

(** *** Collaborators *)

Record VisionFile : Type := { data : jsstring; mimeType : jsstring }.

Inductive Part : Type :=
  | inlineData (mimeType data : jsstring)
  | text (t : jsstring).

Inductive Contents : Type :=
  | userParts (parts : list Part)
  | plainPrompt (prompt : jsstring).

(** The argument of [ai.models.generateContent]; the temperature and the
    response schema steer the model only and are left out. *)
Record GenerateContentParameters : Type := {
  model : jsstring;
  contents : Contents;
  responseMimeType : option jsstring;
  maxOutputTokens : option N
}.

(** The browser, the build and the libraries the service reads.
    [generateContent] is the awaited call: the [text] of the response, absent
    when the response carries none, or the rejection of the promise.
    [JSON5_parse] answers [None] where [JSON5.parse] throws. *)
Record Env : Type := {
  localStorage_gemini_api_key : option jsstring;
  VITE_API_KEY : option jsstring;
  API_KEY : option jsstring;
  toLocaleDateString : jsstring;
  generateContent : GenerateContentParameters -> Completion (option jsstring);
  JSON5_parse : jsstring -> option JSValue
}.

(** *** Keys and client *)

(** [if (localKey && localKey.trim().length > 0) return localKey;] *)
Definition key_of_localStorage (env : Env) : option jsstring :=
  match localStorage_gemini_api_key env with
  | Some localKey =>
      if truthy_string localKey && (0 <? length_ (trim localKey))%N
      then Some localKey else None
  | None => None
  end.

(** [if (import.meta.env && import.meta.env.VITE_API_KEY) return ...] *)
Definition key_of_vite (env : Env) : option jsstring :=
  match VITE_API_KEY env with
  | Some k => if truthy_string k then Some k else None
  | None => None
  end.

(** [if (process.env.API_KEY && process.env.API_KEY !== 'undefined') return ...] *)
Definition key_of_process (env : Env) : option jsstring :=
  match API_KEY env with
  | Some k =>
      if truthy_string k && negb (bool_decide (k = str "undefined"))
      then Some k else None
  | None => None
  end.

Definition getApiKey (env : Env) : option jsstring :=
  match key_of_localStorage env with
  | Some k => Some k
  | None =>
      match key_of_vite env with
      | Some k => Some k
      | None => key_of_process env
      end
  end.

(** The client is its key: [new GoogleGenAI({ apiKey })]. *)
Record GoogleGenAI : Type := { apiKey : jsstring }.

Definition getAIClient (env : Env) : option GoogleGenAI :=
  match getApiKey env with
  | Some k => if truthy_string k then Some {| apiKey := k |} else None
  | None => None
  end.

(** *** The three patterns of the service *)

(** Canonicalize of a pattern with the [i] flag and without [u]: a code unit
    above 127 is never mapped to one below 128, so that an ASCII letter of
    the pattern is matched by its two cases only. *)
Definition canonicalize (c : N) : N :=
  if ((97 <=? c) && (c <=? 122))%N then (c - 32)%N else c.

(** The rest of [s] after a prefix matching [p] up to case. *)
Fixpoint strip_prefix_i (p s : jsstring) : option jsstring :=
  match p, s with
  | [], _ => Some s
  | _ :: _, [] => None
  | a :: p', b :: s' =>
      if (canonicalize a =? canonicalize b)%N then strip_prefix_i p' s' else None
  end.

Definition notLineTerminator (c : N) : bool := negb (isLineTerminator c).

(** [rawText.match] on the pattern [^JUDUL:], [\s*], one group of [.*], with
    the flag [i]: the first group of the match, when there is one. Both stars
    are greedy and what follows them cannot fail, so that no backtracking
    takes place; without the flag [m] the anchor is the start of the text. *)
Definition match_title (rawText : jsstring) : option jsstring :=
  match strip_prefix_i (str "JUDUL:") rawText with
  | Some rest => Some (takeWhile notLineTerminator (dropWhile isWhiteSpace rest))
  | None => None
  end.

(** [rawText.replace(/^JUDUL:.*\n?/i, '')] *)
Definition remove_title_line (rawText : jsstring) : jsstring :=
  match strip_prefix_i (str "JUDUL:") rawText with
  | Some rest =>
      match dropWhile notLineTerminator rest with
      | 10%N :: rest' => rest'
      | rest' => rest'
      end
  | None => rawText
  end.

Definition fence : jsstring := str "```".
Definition fence_json : jsstring := str "```json".

(** [s.replace(/```json\n?|```/g, '')]: every match is removed, wherever it
    stands. [skip] counts the code units of the current match still to drop. *)
Fixpoint remove_fences (skip : nat) (s : jsstring) : jsstring :=
  match s with
  | [] => []
  | c :: rest =>
      match skip with
      | S k => remove_fences k rest
      | O =>
          if startsWith fence_json s then
            match drop 6 rest with
            | 10%N :: _ => remove_fences 7 rest
            | _ => remove_fences 6 rest
            end
          else if startsWith fence s then remove_fences 2 rest
          else c :: remove_fences 0 rest
      end
  end.

(** *** Title and body of the content step *)

(** Lines 520-524 of [generateNoteSummary]: the constants [title] and
    [content]. *)
Definition parseNoteContent (rawText : jsstring) : jsstring * jsstring :=
  let titleMatch := match_title rawText in
  let title := match titleMatch with
               | Some group1 => trim group1
               | None => str "Ringkasan Materi"
               end in
  let content := trim (remove_title_line rawText) in
  (title, content).

(** *** The quiz step *)

(** [parsed.mcq_questions]: reading a property of [null] or [undefined]
    throws; a value without that property reads [undefined]. The keys read
    here are those of the payload, which no prototype defines. *)
Definition read_property (k : jsstring) (v : JSValue) : Completion JSValue :=
  match v with
  | JUndefined | JNull => Throw TypeError
  | JObj ps => Return (default JUndefined (get_prop k ps))
  | _ => Return JUndefined
  end.

(** [(x || []).map(f)]: only an array has [map]. *)
Definition or_empty_map (f : JSValue -> JSValue) (x : JSValue)
  : Completion (list JSValue) :=
  if truthy x then
    match x with
    | JArr items => Return (map f items)
    | _ => Throw TypeError
    end
  else Return [].

(** [q => ({ ...q, type: 'mcq' })] *)
Definition tag_mcq (q : JSValue) : JSValue :=
  JObj (set_prop (str "type") (JStr (str "mcq")) (spread_props q)).

(** [q => ({ ...q, type: 'essay', options: [] })] *)
Definition tag_essay (q : JSValue) : JSValue :=
  JObj (set_prop (str "options") (JArr [])
          (set_prop (str "type") (JStr (str "essay")) (spread_props q))).

(** The array literal of lines 625-628 and 635-638. *)
Definition quiz_of_parsed (parsed : JSValue) : Completion (list JSValue) :=
  let* mcq_questions := read_property (str "mcq_questions") parsed in
  let* mcqs := or_empty_map tag_mcq mcq_questions in
  let* essay_questions := read_property (str "essay_questions") parsed in
  let* essays := or_empty_map tag_essay essay_questions in
  Return (mcqs ++ essays).

Definition parse (env : Env) (s : jsstring) : Completion JSValue :=
  match JSON5_parse env s with
  | Some v => Return v
  | None => Throw SyntaxError
  end.

(** One parsing stage: the body of either [try] block of lines 623-643. *)
Definition parse_stage (env : Env) (text_ : jsstring) : Completion (list JSValue) :=
  let* parsed := parse env text_ in
  quiz_of_parsed parsed.

(** Lines 623-643 of [regenerateQuiz]: the two parsing stages on a response
    text. *)
Definition parseQuizPayload (env : Env) (response_text : jsstring)
  : Completion (list JSValue) :=
  try_catch
    (parse_stage env response_text)
    (fun e =>
       let cleanText := remove_fences 0 response_text in
       try_catch
         (parse_stage env cleanText)
         (fun err2 => Return [])).

(** *** Prompts *)

Definition promptContent_head : jsstring :=
  join_lines
    [ str "";
      str "  Tugas: Analisis materi dan buat MODUL PEMBELAJARAN MENDALAM & KOMPREHENSIF.";
      str "  ";
      str "  Instruksi Format Output (PENTING):";
      str "  1. Baris Pertama WAJIB diawali dengan " ++ dq ++ str "JUDUL: " ++ dq ++ str " diikuti judul materi.";
      str "  2. Baris Kedua dan seterusnya adalah ISI MATERI dalam format Markdown.";
      str "  ";
      str "  Instruksi Isi Materi:";
      str "  - **PENJELASAN**: Harus SANGAT PANJANG, MENDETAIL, dan NARATIF. ";
      str "    - JANGAN hanya membahas Tipe Data atau Sintaks dasar.";
      str "    - Jelaskan KONSEP, LOGIKA, ALGORITMA, SEJARAH, dan KEGUNAAN NYATA (Use Cases).";
      str "    - Gunakan gaya bahasa buku teks akademik yang menjelaskan " ++ dq ++ str "Mengapa" ++ dq ++ str " dan " ++ dq ++ str "Bagaimana" ++ dq ++ str ". ";
      str "    - Minimal 3-4 paragraf tebal per sub-topik.";
      str "  - **STRUKTUR**: Gunakan Heading 2 (##) untuk Bab Utama dan Heading 3 (###) untuk Sub-bab.";
      str "  ";
      str "  - **KHUSUS MATERI PEMROGRAMAN/IT**:";
      str "    a. **BAHASA PEMROGRAMAN**: WAJIB memberikan contoh kode HANYA dalam bahasa **C** dan **COBOL** untuk setiap konsep yang dijelaskan. (Jangan gunakan Python, Java, dll).";
      str "    b. **BATASAN CONTOH**: Cukup 1 contoh program komplit untuk masing-masing bahasa (C dan COBOL) per sub-bab yang relevan.";
      str "    c. Kode harus ditulis dalam blok code markdown yang rapi.";
      str "    d. Di bawah setiap kode, WAJIB buat blok kode terpisah dengan label " ++ dq ++ str "TERMINAL OUTPUT" ++ dq ++ str " untuk hasil eksekusinya.";
      str "    e. **ANALISIS KODE**: Jelaskan logika kode C dan COBOL tersebut baris demi baris secara mendalam.";
      str "  ";
      str "  " ].

Definition quizPrompt_head : jsstring :=
  join_lines
    [ str "";
      str "  Berdasarkan materi berikut, buatlah Kuis Evaluasi yang komprehensif.";
      str "  ";
      str "  MATERI:";
      str "  " ].

Definition quizPrompt_tail : jsstring :=
  join_lines
    [ str "";
      str "  ";
      str "  TUGAS:";
      str "  Buat file JSON yang berisi 2 array: 'mcq_questions' dan 'essay_questions'.";
      str "  ";
      str "  KOMPOSISI SOAL (WAJIB DIPATUHI):";
      str "  1. **10 Soal Pilihan Ganda (MCQ)**: ";
      str "     - Cakupan luas dari materi.";
      str "  2. **10 Soal Esai (Total)** dengan rincian:";
      str "     - **5 Soal Esai Teori**: Pertanyaan konseptual/analisis.";
      str "     - **5 Soal " ++ dq ++ str "Melengkapi Program" ++ dq ++ str " (Code Completion)**:";
      str "       - **KHUSUS MATERI IT/CODING**: Berikan snippet kode dalam soal (gunakan format markdown ```) yang rumpang/hilang sebagian.";
      str "       - **PENTING**: Gunakan bahasa **C** atau **COBOL** untuk soal melengkapi program (sesuai materi).";
      str "       - Minta siswa melengkapi baris tersebut atau menebak outputnya.";
      str "  ";
      str "  IMPORTANT:";
      str "  - Output HARUS Valid JSON.";
      str "  - Escape backslash dan karakter spesial dalam string JSON.";
      str "  " ].

(** [promptContent] of [generateNoteSummary]. *)
Definition promptContent (contextText : jsstring) : jsstring :=
  promptContent_head
  ++ (if truthy_string contextText
      then 10%N :: str "Konteks Tambahan:" ++ 10%N :: contextText
      else [])
  ++ 10%N :: str "  ".

(** The excerpt of the material sent to the quiz generator. *)
Definition safeContent (content : jsstring) : jsstring :=
  if (30000 <? length_ content)%N
  then slice0 30000 content ++ str "..."
  else content.

(** [prompt] of [regenerateQuiz]. *)
Definition quizPrompt (content : jsstring) : jsstring :=
  quizPrompt_head ++ safeContent content ++ quizPrompt_tail.

(** *** The two entry points *)

(** The request of the quiz step. *)
Definition quizRequest (content : jsstring) : GenerateContentParameters :=
  {| model := str "gemini-2.5-flash";
     contents := plainPrompt (quizPrompt content);
     responseMimeType := Some (str "application/json");
     maxOutputTokens := None |}.

Definition regenerateQuiz (env : Env) (content : jsstring)
  : Completion (list JSValue) :=
  match getAIClient env with
  | None => Return []
  | Some ai =>
      try_catch
        (let* response_text := generateContent env (quizRequest content) in
         match response_text with
         | Some t => if truthy_string t then parseQuizPayload env t else Return []
         | None => Return []
         end)
        (fun error => Return [])
  end.

Record NoteSummary : Type := {
  title : jsstring;
  content : jsstring;
  quiz : list JSValue
}.

(** The result of the [catch] branch of [generateNoteSummary]. *)
Definition degraded_summary (env : Env) (contextText : jsstring) : NoteSummary :=
  {| title := str "Catatan " ++ toLocaleDateString env;
     content :=
       if truthy_string contextText
       then str "## Gagal Memproses AI" ++ [10%N; 10%N]
            ++ str "Maaf, terjadi kesalahan saat menghubungi AI. Berikut teks yang terbaca:"
            ++ [10%N; 10%N] ++ slice0 3000 contextText ++ str "..."
       else str "Terjadi kesalahan. Coba upload ulang atau gunakan file yang lebih kecil.";
     quiz := [] |}.

(** The request of the content step: the attachments, then the prompt. *)
Definition contentRequest (images : list VisionFile) (contextText : jsstring)
  : GenerateContentParameters :=
  {| model := str "gemini-2.5-flash";
     contents :=
       userParts (map (fun img => inlineData (mimeType img) (data img)) images
                  ++ [text (promptContent contextText)]);
     responseMimeType := None;
     maxOutputTokens := Some 8192%N |}.

Definition generateNoteSummary (env : Env) (images : list VisionFile)
    (contextText : jsstring) (fileCount : N) : Completion NoteSummary :=
  match getAIClient env with
  | None =>
      Return {| title := str "Error Konfigurasi";
                content := str "API Key belum di-setting. Mohon masukkan API Key di menu Pengaturan.";
                quiz := [] |}
  | Some ai =>
      try_catch
        (let* contentResponse_text :=
           generateContent env (contentRequest images contextText) in
         let rawText := default [] contentResponse_text in
         if negb (truthy_string rawText)
         then Throw (Error (str "Empty response from AI"))
         else
           let '(title, content) := parseNoteContent rawText in
           let* quiz := regenerateQuiz env content in
           Return {| title := title; content := content; quiz := quiz |})
        (fun error => Return (degraded_summary env contextText))
  end.

(** *** Vocabulary of the specification *)

(** A property of a payload holds an array, or is missing or otherwise falsy
    and stands for the empty array. *)
Definition array_or_missing (v : JSValue) (items : list JSValue) : Prop :=
  v = JArr items \/ (truthy v = false /\ items = []).

(** The two named arrays of a payload. *)
Definition payload_arrays (parsed : JSValue) (mcqs essays : list JSValue) : Prop :=
  exists mcq_questions essay_questions,
    read_property (str "mcq_questions") parsed = Return mcq_questions
    /\ array_or_missing mcq_questions mcqs
    /\ read_property (str "essay_questions") parsed = Return essay_questions
    /\ array_or_missing essay_questions essays.

(** A property of a quiz entry. *)
Definition entry_prop (k : jsstring) (entry : JSValue) : option JSValue :=
  match entry with
  | JObj ps => get_prop k ps
  | _ => None
  end.

(** The ways the quiz step can fail once the content step has succeeded. *)
Inductive QuizStepFails (env : Env) (content : jsstring) : Prop :=
  | quiz_no_client :
      getAIClient env = None -> QuizStepFails env content
  | quiz_rejected e :
      generateContent env (quizRequest content) = Throw e ->
      QuizStepFails env content
  | quiz_no_text :
      generateContent env (quizRequest content) = Return None ->
      QuizStepFails env content
  | quiz_empty_text :
      generateContent env (quizRequest content) = Return (Some []) ->
      QuizStepFails env content
  | quiz_unparsable t e1 e2 :
      generateContent env (quizRequest content) = Return (Some t) ->
      parse_stage env t = Throw e1 ->
      parse_stage env (remove_fences 0 t) = Throw e2 ->
      QuizStepFails env content.

(** The marker of the title line, matched up to case at the start of the
    text. *)
Definition startsWithMarker (rawText : jsstring) : bool :=
  match strip_prefix_i (str "JUDUL:") rawText with
  | Some _ => true
  | None => false
  end.

End GeminiService.

(** The note the chat application stores for a summary: [title] falls back
    to the dated label when the summary has an empty one. *)
Module ChatApp.

Import GeminiService.

Definition newNote_title (env : Env) (summary : NoteSummary) : jsstring :=
  if truthy_string (title summary) then title summary
  else str "Catatan " ++ toLocaleDateString env.

End ChatApp.

(** ** Worked data *)

Module Examples.

Import NoteDetailPage GeminiService.

(** One multiple-choice entry whose key is the option [4]. *)
Definition sum_question : QuizQuestion :=
  {| type := Some mcq;
     question := str "2+2?";
     options := Some [str "3"; str "4"; str "5"];
     answer := str "4";
     explanation := str "basic addition" |}.

Definition essay_question : QuizQuestion :=
  {| type := Some essay;
     question := str "Jelaskan fotosintesis.";
     options := Some [];
     answer := str "cahaya, air, karbon dioksida";
     explanation := str "pokok jawaban" |}.

(** The answer [4] submitted for the first [n] positions. *)
Definition first_answers (n : nat) : gmap nat jsstring :=
  list_to_map (map (fun i => (i, str "4")) (seq 0 n)).

(** Forty multiple-choice entries, the first twenty-three answered rightly. *)
Definition quiz40 : list QuizQuestion := repeat sum_question 40.
Definition answers23 : gmap nat jsstring := first_answers 23.

(** Ten entries, seven answered rightly, and three essay entries after them. *)
Definition quiz10 : list QuizQuestion := repeat sum_question 10.
Definition answers7 : gmap nat jsstring := first_answers 7.

(** The line feed and the sample response of the content step. *)
Definition LF : jsstring := [10%N].

Definition fotosintesis : jsstring :=
  str "JUDUL: Fotosintesis" ++ LF ++ str "Isi bab satu...".

(** A literal written with apostrophes where the JSON text has double
    quotes. *)
Definition json (s : string) : jsstring :=
  map (fun c => if (c =? 39)%N then 34%N else c) (str s).

(** No key anywhere, on the first of November 2026 (en-US). *)
Definition env_no_key : Env :=
  {| localStorage_gemini_api_key := None;
     VITE_API_KEY := None;
     API_KEY := None;
     toLocaleDateString := str "11/1/2026";
     generateContent := fun _ => Throw Rejected;
     JSON5_parse := read_json |}.

(** A key in the settings; the model answers the content step with
    [fotosintesis] and rejects the quiz step. *)
Definition env_quiz_down : Env :=
  {| localStorage_gemini_api_key := Some (str "AIza-demo");
     VITE_API_KEY := None;
     API_KEY := None;
     toLocaleDateString := str "11/1/2026";
     generateContent := fun request =>
       match contents request with
       | userParts _ => Return (Some fotosintesis)
       | plainPrompt _ => Throw Rejected
       end;
     JSON5_parse := read_json |}.

(** A payload with one essay entry whose question shows a code block. *)
Definition code_payload : jsstring :=
  json "{'mcq_questions':[],'essay_questions':[{'question':'Lengkapi: ```c int x = __; ```','answer':'5','explanation':'nilai awal'}]}".

Definition fenced_code_payload : jsstring :=
  str "```json" ++ LF ++ code_payload ++ LF ++ str "```".

(** The payload of the end-to-end scenario of the specification. *)
Definition sum_payload : jsstring :=
  json "{'mcq_questions':[{'question':'2+2?','options':['3','4','5'],'answer':'4','explanation':'basic addition'}],'essay_questions':[]}".

End Examples.

(** ** services/geminiService.ts: the chat turn *)

Module GeminiChat.

Import GeminiService.

(** [LearningMode] of types.ts. *)
Inductive LearningMode : Type := GENERAL | MATH | INTERACTIVE | SUMMARIZER | WRITING.

Inductive Role : Type := user | model_.

(** A message of the history, with the fields the service reads; [images]
    holds data URLs. *)
Record Message : Type := {
  role : Role;
  text_ : jsstring;
  images : option (list jsstring)
}.

(** [inlineData] of a part of the chat request; [data] is [undefined] when
    the data URL it comes from has no comma. *)
Record InlineData : Type := {
  mimeType_ : jsstring;
  data_ : option jsstring
}.

Inductive ChatPart : Type :=
  | inlinePart (d : InlineData)
  | textPart (t : jsstring).

Record Content : Type := { content_role : Role; parts : list ChatPart }.

(** The argument of [ai.models.generateContentStream], the temperature left
    out. *)
Record StreamParameters : Type := {
  stream_model : jsstring;
  stream_contents : list Content;
  systemInstruction : jsstring
}.

Record UsageMetadata : Type := {
  promptTokenCount : option float;
  candidatesTokenCount : option float;
  totalTokenCount : option float
}.

Record Chunk : Type := {
  chunk_text : option jsstring;
  usageMetadata : option UsageMetadata
}.

(** What the stream does: the chunks it delivers, in order, and the error it
    then throws, if any (the [message] of the error, when it has one). A
    call that is rejected at once delivers no chunk. *)
Record StreamOutcome : Type := {
  delivered : list Chunk;
  failure : option (option jsstring)
}.

Record Usage : Type := {
  promptTokens : float;
  responseTokens : float;
  totalTokens : float
}.

(** The calls made to the two callbacks, in order. *)
Inductive Callback : Type :=
  | onChunk (t : jsstring)
  | onFinish (usage : Usage).

(** [x || 0] on a number that may be absent. *)
Definition or_zero (x : option float) : float :=
  match x with
  | Some v => if PrimFloat.eqb v 0%float || negb (PrimFloat.eqb v v) then 0%float else v
  | None => 0%float
  end.

(** *** Data URLs *)

(** The text before the first comma and the rest after it. *)
Fixpoint split_first_comma (s : jsstring) : jsstring * option jsstring :=
  match s with
  | [] => ([], None)
  | c :: r =>
      if (c =? 44)%N then ([], Some r)
      else let '(h, t) := split_first_comma r in (c :: h, t)
  end.

(** [const [header, data] = img.split(',')]: the first two pieces. *)
Definition split_header_data (img : jsstring) : jsstring * option jsstring :=
  let '(header, rest) := split_first_comma img in
  (header, match rest with
           | Some r => Some (split_first_comma r).1
           | None => None
           end).

(** The lazy group of the pattern [:], [(.*?)], [;] tried right after a
    colon: the code units up to the first semicolon, none of them a line
    terminator. *)
Fixpoint until_semicolon (s : jsstring) : option jsstring :=
  match s with
  | [] => None
  | c :: r =>
      if (c =? 59)%N then Some []
      else if isLineTerminator c then None
      else match until_semicolon r with
           | Some g => Some (c :: g)
           | None => None
           end
  end.

(** [header.match] on that pattern: the group of the leftmost match. *)
Fixpoint match_mime (s : jsstring) : option jsstring :=
  match s with
  | [] => None
  | c :: r =>
      if (c =? 58)%N then
        match until_semicolon r with
        | Some g => Some g
        | None => match_mime r
        end
      else match_mime r
  end.

(** [header.match(...)?.[1] || fallback] *)
Definition mime_or (fallback : jsstring) (header : jsstring) : jsstring :=
  match match_mime header with
  | Some g => if truthy_string g then g else fallback
  | None => fallback
  end.

(** The part made of one data URL of the history. *)
Definition inlineData_of_url (img : jsstring) : InlineData :=
  let '(header, data) := split_header_data img in
  {| mimeType_ := mime_or (str "image/jpeg") header; data_ := data |}.

(** *** The system instruction *)

Definition base : jsstring :=
  str "Kamu adalah PintarAI, asisten belajar yang cerdas. Gunakan Bahasa Indonesia yang formal namun santai. Gunakan Markdown yang rapi.".

Definition getSystemInstruction (mode : LearningMode) : jsstring :=
  match mode with
  | MATH =>
      base ++ str " Jelaskan langkah demi langkah. Gunakan LaTeX ($x^2$). Setelah solusi, berikan 1-3 soal latihan pilihan ganda."
  | INTERACTIVE =>
      base ++ str " Jelaskan konsep. SETELAH penjelasan, WAJIB berikan 1-3 kuis pilihan ganda singkat."
  | SUMMARIZER =>
      base ++ join_lines
        [ str " Rangkum materi menjadi MODUL PEMBELAJARAN MENDALAM.";
          str "      - Penjelasan harus NARATIF, PANJANG, dan MENDETAIL (bukan hanya poin-poin).";
          str "      - Fokus pada KONSEP, LOGIKA, dan USE CASES, jangan hanya membahas tipe data/sintaks dasar.";
          str "      - JIKA MATERI IT/CODING: Berikan contoh kode HANYA dalam bahasa **C** dan **COBOL**. Sertakan blok OUTPUT programnya." ]
  | WRITING => base ++ str " Bantu menulis esai dan feedback tata bahasa."
  | GENERAL => base ++ str " Jawab jelas dan ringkas."
  end.

(** *** The messages shown in place of a response *)

(** The warning sign with its variation selector, and the gear. *)
Definition warning_sign : jsstring := [9888%N; 65039%N].
Definition gear_sign : jsstring := [9881%N; 65039%N].

Definition configuration_required : jsstring :=
  warning_sign ++ str " **Konfigurasi Diperlukan**: API Key belum ditemukan."
  ++ [10%N; 10%N] ++ str "Silakan klik tombol **Pengaturan (" ++ gear_sign
  ++ str ")** di pojok kiri bawah sidebar dan masukkan Google Gemini API Key Anda.".

Definition server_error : jsstring :=
  [10%N; 10%N] ++ str "*Maaf, terjadi kesalahan saat menghubungi server AI.*".

Definition invalid_key_error : jsstring :=
  [10%N; 10%N] ++ warning_sign
  ++ str " **API Key Tidak Valid**: Mohon cek kembali API Key di menu Pengaturan.".

(** [errorMsg] of the [catch] block. *)
Definition errorMsg (message : option jsstring) : jsstring :=
  match message with
  | Some m =>
      if truthy_string m && includes (str "API key not valid") m
      then invalid_key_error else server_error
  | None => server_error
  end.

(** *** The request and the stream *)

(** One message of the history as a content: its attachments, then its
    text. *)
Definition content_of_message (msg : Message) : Content :=
  {| content_role := role msg;
     parts :=
       match images msg with
       | Some (img :: imgs) => map (fun i => inlinePart (inlineData_of_url i)) (img :: imgs)
       | _ => []
       end
       ++ (if truthy_string (text_ msg) then [textPart (text_ msg)] else []) |}.

Definition currentParts (currentText : jsstring) (currentImages : list InlineData)
  : list ChatPart :=
  map inlinePart currentImages
  ++ (if truthy_string currentText then [textPart currentText] else []).

Definition streamRequest (history : list Message) (currentText : jsstring)
    (currentImages : list InlineData) (mode : LearningMode) : StreamParameters :=
  {| stream_model :=
       match mode with
       | MATH | INTERACTIVE => str "gemini-3-pro-preview"
       | _ => str "gemini-2.5-flash"
       end;
     stream_contents :=
       map content_of_message history
       ++ [{| content_role := user; parts := currentParts currentText currentImages |}];
     systemInstruction := getSystemInstruction mode |}.

(** The argument [onFinish] is called with. *)
Definition usage_of (u : UsageMetadata) : Usage :=
  {| promptTokens := or_zero (promptTokenCount u);
     responseTokens := or_zero (candidatesTokenCount u);
     totalTokens := or_zero (totalTokenCount u) |}.

(** The body of the [for await] loop on one chunk. *)
Definition chunk_callbacks (with_onFinish : bool) (chunk : Chunk) : list Callback :=
  (match chunk_text chunk with
   | Some t => if truthy_string t then [onChunk t] else []
   | None => []
   end)
  ++ (match usageMetadata chunk with
      | Some u => if with_onFinish then [onFinish (usage_of u)] else []
      | None => []
      end).

(** [streamGeminiResponse]: the calls it makes to [onChunk] and [onFinish].
    [stream] stands for [ai.models.generateContentStream]; [with_onFinish]
    tells whether the optional callback is given. *)
Definition streamGeminiResponse (env : Env)
    (stream : StreamParameters -> StreamOutcome)
    (history : list Message) (currentText : jsstring)
    (currentImages : list InlineData) (mode : LearningMode)
    (with_onFinish : bool) : list Callback :=
  match getAIClient env with
  | None => [onChunk configuration_required]
  | Some ai =>
      match currentParts currentText currentImages with
      | [] => []
      | _ :: _ =>
          let outcome := stream (streamRequest history currentText currentImages mode) in
          flat_map (chunk_callbacks with_onFinish) (delivered outcome)
          ++ match failure outcome with
             | Some message => [onChunk (errorMsg message)]
             | None => []
             end
      end
  end.

End GeminiChat.

(** ** The handlers of the chat application *)

Module ChatAppHandlers.

Import GeminiService GeminiChat.

(** [handleSaveApiKey]: what it leaves in the settings store. *)
Definition handleSaveApiKey (apiKeyInput : jsstring) (env : Env) : Env :=
  {| localStorage_gemini_api_key :=
       if truthy_string (trim apiKeyInput) then Some (trim apiKeyInput) else None;
     VITE_API_KEY := VITE_API_KEY env;
     API_KEY := API_KEY env;
     toLocaleDateString := toLocaleDateString env;
     generateContent := generateContent env;
     JSON5_parse := JSON5_parse env |}.

(** The attachment [handleSend] and [handleCreateNote] make of a data URL. *)
Definition visionFile_of_url (url : jsstring) : InlineData :=
  let '(header, data) := split_header_data url in
  {| mimeType_ := mime_or (str "image/jpeg") header; data_ := data |}.

(** The data URL [handleCreateNote] stores for an attachment,
    [data:${f.mimeType};base64,${f.data}]. *)
Definition originalFile (mimeType data : jsstring) : jsstring :=
  str "data:" ++ mimeType ++ str ";base64," ++ data.

(** [fileLabel] of [handleSend]. *)
Definition fileLabel (visionFiles : list InlineData) : jsstring :=
  match visionFiles with
  | [] => str "Lampiran"
  | f :: _ =>
      let mime := mimeType_ f in
      if includes (str "pdf") mime then str "Dokumen PDF"
      else if startsWith (str "audio") mime then str "Rekaman Audio"
      else if startsWith (str "video") mime then str "Video"
      else str "Gambar"
  end.

(** The title [handleSend] gives to a conversation that has no session
    yet. *)
Definition newSessionTitle (userText : jsstring) (visionFiles : list InlineData)
  : jsstring :=
  (if truthy_string (slice0 30 userText) then slice0 30 userText
   else fileLabel visionFiles)
  ++ str "...".

(** The two callbacks of [handleSend]: [accumulatedText += chunk] and
    [usageData = usage]. *)
Fixpoint accumulate (calls : list Callback) (accumulatedText : jsstring)
    (usageData : option Usage) : jsstring * option Usage :=
  match calls with
  | [] => (accumulatedText, usageData)
  | onChunk t :: rest => accumulate rest (accumulatedText ++ t) usageData
  | onFinish u :: rest => accumulate rest accumulatedText (Some u)
  end.

(** The texts of the chunks of a stream, one after the other, and the
    usage figures its chunks carry. *)
Definition streamed_text (chunks : list Chunk) : jsstring :=
  concat (map (fun c => default [] (chunk_text c)) chunks).

Definition streamed_usages (chunks : list Chunk) : list Usage :=
  omap (fun c => usage_of <$> usageMetadata c) chunks.

End ChatAppHandlers.

(** ** The handlers of the note page *)

Module NoteDetailHandlers.

Import GeminiService NoteDetailPage.

(** [isPrintable] of [extractTextFromBinary]. *)
Definition isPrintable (code : N) : bool :=
  ((32 <=? code) && (code <=? 126) || (code =? 10) || (code =? 13) || (code =? 9))%N.

(** The loop of [extractTextFromBinary] over the bytes, threading [result]
    and [currentString]. *)
Fixpoint scan_bytes (view : list N) (result currentString : jsstring)
  : jsstring * jsstring :=
  match view with
  | [] => (result, currentString)
  | code :: rest =>
      if isPrintable code
      then scan_bytes rest result (currentString ++ [code])
      else scan_bytes rest
             (if (4 <? length_ currentString)%N
              then result ++ currentString ++ str " " else result)
             []
  end.

(** [extractTextFromBinary] of pages/NoteDetailPage.tsx; the argument is the
    outcome of [file.arrayBuffer()], a sequence of bytes. *)
Definition extractTextFromBinary (arrayBuffer : Completion (list N)) : jsstring :=
  match arrayBuffer with
  | Throw e => []
  | Return view =>
      let '(result, currentString) := scan_bytes view [] [] in
      trim (if (4 <? length_ currentString)%N then result ++ currentString else result)
  end.

(** [s.replace(p, by)] for a global pattern [p] of a backslash and the code
    unit [e]. *)
Fixpoint replace_escape (e : N) (by_ : jsstring) (s : jsstring) : jsstring :=
  match s with
  | [] => []
  | c :: t =>
      match t with
      | d :: rest =>
          if (c =? 92)%N && (d =? e)%N then by_ ++ replace_escape e by_ rest
          else c :: replace_escape e by_ t
      | [] => [c]
      end
  end.

(** [formattedContent]: an escaped [n] becomes a line feed, an escaped [t]
    two blanks. *)
Definition formattedContent (note_content : jsstring) : jsstring :=
  if negb (truthy_string note_content) then []
  else replace_escape 116 (str "  ") (replace_escape 110 [10%N] note_content).

(** Whether the text shows a backslash followed by the code unit [e]. *)
Definition has_escape (e : N) (s : jsstring) : bool := includes [92%N; e] s.

(** [handleAnswer] and [handleResetQuestion] as functions of [quizAnswers]. *)
Definition handleAnswer (showResults : bool) (qIndex : nat) (option_ : jsstring)
    (quizAnswers : gmap nat jsstring) : gmap nat jsstring :=
  if showResults then quizAnswers else <[qIndex := option_]> quizAnswers.

Definition handleResetQuestion (index : nat) (quizAnswers : gmap nat jsstring)
  : gmap nat jsstring :=
  delete index quizAnswers.

End NoteDetailHandlers.

(** ** Properties of the quiz score *)

Section Score.

Import NoteDetailPage.

Implicit Types (quiz : list QuizQuestion) (quizAnswers : gmap nat jsstring).

Lemma multipleChoiceCount_cons q quiz :
  multipleChoiceCount (q :: quiz)
  = ((if isMCQ q then 1 else 0) + multipleChoiceCount quiz)%nat.
Proof.
  unfold multipleChoiceCount. destruct (isMCQ q) eqn:E.
  - rewrite filter_cons_True by done. reflexivity.
  - rewrite filter_cons_False by (rewrite E; discriminate). reflexivity.
Qed.

Lemma mcqSubmissions_length quizAnswers quiz idx :
  length (mcqSubmissions quizAnswers quiz idx) = multipleChoiceCount quiz.
Proof.
  revert idx. induction quiz as [|q quiz IH]; intros idx; [reflexivity|].
  rewrite multipleChoiceCount_cons. simpl. destruct (isMCQ q); simpl; rewrite IH; reflexivity.
Qed.

(** The loop of the essay revision is the count of the submissions: what it
    adds to [correct] are the right submissions, what it adds to [totalMCQ]
    all of them. *)
Lemma forEach_score_submissions quizAnswers quiz idx correct totalMCQ :
  EssayRevision.forEach_score quizAnswers quiz idx correct totalMCQ
  = ((correct + length (filter isCorrect (mcqSubmissions quizAnswers quiz idx)))%nat,
     (totalMCQ + length (mcqSubmissions quizAnswers quiz idx))%nat).
Proof.
  revert idx correct totalMCQ.
  induction quiz as [|q quiz IH]; intros idx correct totalMCQ; simpl.
  - f_equal; lia.
  - destruct (isMCQ q) eqn:E; [|apply IH].
    rewrite IH. unfold answeredCorrectly.
    case_bool_decide as Hq.
    + rewrite filter_cons_True by exact Hq. simpl. f_equal; lia.
    + rewrite filter_cons_False by exact Hq. simpl. f_equal; lia.
Qed.

Lemma EssayRevision_score_submissions quiz quizAnswers :
  EssayRevision.calculateScore (Some quiz) quizAnswers
  = score_of_submissions (mcqSubmissions quizAnswers quiz 0).
Proof.
  unfold EssayRevision.calculateScore, score_of_submissions.
  rewrite forEach_score_submissions. reflexivity.
Qed.

Lemma EssayRevision_score_counts quiz quizAnswers :
  EssayRevision.calculateScore (Some quiz) quizAnswers
  = if (multipleChoiceCount quiz =? 0)%nat then Int 0
    else round_percentage (correctCount quizAnswers quiz) (multipleChoiceCount quiz).
Proof.
  rewrite EssayRevision_score_submissions. unfold score_of_submissions, correctCount.
  rewrite mcqSubmissions_length. reflexivity.
Qed.

Lemma correctCount_le quizAnswers quiz :
  (correctCount quizAnswers quiz <= multipleChoiceCount quiz)%nat.
Proof.
  unfold correctCount.
  rewrite <- (mcqSubmissions_length quizAnswers quiz 0). apply length_filter.
Qed.

(** *** Binary64 against the exact quotient *)

Lemma Integral_eqb_eq a b : Integral_eqb a b = true -> a = b.
Proof.
  destruct a as [|s|n], b as [|s'|n']; simpl; try discriminate; try reflexivity.
  - intros H. apply Bool.eqb_prop in H. congruence.
  - intros H. apply Z.eqb_eq in H. congruence.
Qed.

Lemma percentages_exact_39 : percentages_exact_upto 39 = true.
Proof. vm_compute. reflexivity. Qed.

Lemma round_percentage_exact c t :
  (0 < t < 40)%nat -> (c <= t)%nat ->
  round_percentage c t = Int (round_div (100 * Z.of_nat c) (Z.of_nat t)).
Proof.
  intros Ht Hc. apply Integral_eqb_eq.
  pose proof percentages_exact_39 as H. unfold percentages_exact_upto in H.
  rewrite forallb_forall in H.
  assert (Hin : In t (seq 1 39)) by (apply in_seq; lia).
  specialize (H t Hin). rewrite forallb_forall in H.
  apply H. apply in_seq. lia.
Qed.

(** [round_div n d] is the integer nearest to [n / d], the upper one at a
    tie. *)
Lemma round_div_nearest n d :
  0 < d ->
  2 * d * round_div n d <= 2 * n + d < 2 * d * (round_div n d + 1).
Proof.
  intros Hd. unfold round_div.
  pose proof (Z.div_mod (2 * n + d) (2 * d) ltac:(lia)) as Hdm.
  pose proof (Z.mod_pos_bound (2 * n + d) (2 * d) ltac:(lia)) as Hb.
  lia.
Qed.

(** *** The essay revision computes the specified score *)

(** For every quiz with fewer than forty multiple-choice entries, the essay
    revision of [calculateScore] returns the score of the specification. *)
Lemma EssayRevision_score_specified quiz quizAnswers :
  (multipleChoiceCount quiz < 40)%nat ->
  EssayRevision.calculateScore (Some quiz) quizAnswers
  = specified_score quiz quizAnswers.
Proof.
  intros Hsmall. rewrite EssayRevision_score_counts. unfold specified_score.
  destruct (multipleChoiceCount quiz =? 0)%nat eqn:E; [reflexivity|].
  apply Nat.eqb_neq in E.
  apply round_percentage_exact; [lia | apply correctCount_le].
Qed.

(** From forty entries on the binary64 product can fall below a tie: the
    quotient [23 / 40] is the binary64 just below [0.575], its product with
    [100] is [57.49999999999999] and [Math.round] answers [57], while
    [100 * 23 / 40 = 57.5] rounds to [58]. *)
Lemma EssayRevision_score_40_23 :
  multipleChoiceCount Examples.quiz40 = 40%nat
  /\ correctCount Examples.answers23 Examples.quiz40 = 23%nat
  /\ EssayRevision.calculateScore (Some Examples.quiz40) Examples.answers23 = Int 57
  /\ specified_score Examples.quiz40 Examples.answers23 = Int 58.
Proof. repeat split; vm_compute; reflexivity. Qed.

(** *** Entries that are not scored *)

Lemma mcqSubmissions_app quizAnswers quiz1 quiz2 idx :
  mcqSubmissions quizAnswers (quiz1 ++ quiz2) idx
  = mcqSubmissions quizAnswers quiz1 idx
    ++ mcqSubmissions quizAnswers quiz2 (idx + length quiz1).
Proof.
  revert idx. induction quiz1 as [|q quiz1 IH]; intros idx; simpl.
  - f_equal. lia.
  - rewrite IH. replace (S idx + length quiz1)%nat with (idx + S (length quiz1))%nat by lia.
    destruct (isMCQ q); reflexivity.
Qed.

Lemma mcqSubmissions_essays quizAnswers essays idx :
  Forall (fun q => type q = Some essay) essays ->
  mcqSubmissions quizAnswers essays idx = [].
Proof.
  intros H. revert idx. induction H as [|q essays Hq _ IH]; intros idx; simpl.
  - reflexivity.
  - unfold isMCQ. rewrite Hq. apply IH.
Qed.

(** The submissions read the answers at the positions of the entries only. *)
Lemma mcqSubmissions_ext quizAnswers quizAnswers' quiz idx idx' :
  (forall j, (j < length quiz)%nat ->
             quizAnswers' !! (idx' + j)%nat = quizAnswers !! (idx + j)%nat) ->
  mcqSubmissions quizAnswers' quiz idx' = mcqSubmissions quizAnswers quiz idx.
Proof.
  revert idx idx'. induction quiz as [|q quiz IH]; intros idx idx' H; simpl.
  - reflexivity.
  - assert (Hrest : mcqSubmissions quizAnswers' quiz (S idx')
                    = mcqSubmissions quizAnswers quiz (S idx)).
    { apply IH. intros j Hj.
      replace (S idx' + j)%nat with (idx' + S j)%nat by lia.
      replace (S idx + j)%nat with (idx + S j)%nat by lia.
      apply H. simpl. lia. }
    rewrite Hrest. destruct (isMCQ q); [|reflexivity].
    specialize (H 0%nat ltac:(simpl; lia)).
    rewrite !Nat.add_0_r in H. rewrite H. reflexivity.
Qed.

Lemma lookup_shift_answers k quizAnswers i :
  shift_answers k quizAnswers !! shift_key k i = quizAnswers !! i.
Proof. unfold shift_answers. apply (lookup_kmap (shift_key k)). Qed.

(** An entry that is no multiple-choice entry, inserted anywhere, with the
    answers following their entries. *)
Lemma mcqSubmissions_insert quizAnswers front back e :
  isMCQ e = false ->
  mcqSubmissions (shift_answers (length front) quizAnswers) (front ++ e :: back) 0
  = mcqSubmissions quizAnswers (front ++ back) 0.
Proof.
  intros He. rewrite !mcqSubmissions_app. simpl. rewrite He. f_equal.
  - apply mcqSubmissions_ext. intros j Hj. simpl.
    rewrite <- (lookup_shift_answers (length front) quizAnswers j).
    unfold shift_key. rewrite bool_decide_eq_true_2 by lia. reflexivity.
  - apply mcqSubmissions_ext. intros j Hj.
    rewrite <- (lookup_shift_answers (length front) quizAnswers (length front + j)).
    unfold shift_key. rewrite bool_decide_eq_false_2 by lia. reflexivity.
Qed.

(** In the essay revision the multiple-choice entries with the answers
    submitted for them alone determine the percentage; hence essay entries
    added after the scored ones leave it as it is under the same answers,
    and an essay entry inserted at (or removed from) any position leaves it
    as it is when the answers, which are keyed by position, stay with their
    entries. *)
Lemma EssayRevision_score_essay_invariant :
  (forall quiz1 quiz2 quizAnswers1 quizAnswers2,
      mcqSubmissions quizAnswers1 quiz1 0 = mcqSubmissions quizAnswers2 quiz2 0 ->
      EssayRevision.calculateScore (Some quiz1) quizAnswers1
      = EssayRevision.calculateScore (Some quiz2) quizAnswers2)
  /\ (forall quiz essays quizAnswers,
      Forall (fun q => type q = Some essay) essays ->
      EssayRevision.calculateScore (Some (quiz ++ essays)) quizAnswers
      = EssayRevision.calculateScore (Some quiz) quizAnswers)
  /\ (forall front back e quizAnswers,
      type e = Some essay ->
      EssayRevision.calculateScore (Some (front ++ e :: back))
                                   (shift_answers (length front) quizAnswers)
      = EssayRevision.calculateScore (Some (front ++ back)) quizAnswers).
Proof.
  split; [|split].
  - intros quiz1 quiz2 a1 a2 H. rewrite !EssayRevision_score_submissions, H. reflexivity.
  - intros quiz essays a H. rewrite !EssayRevision_score_submissions.
    rewrite mcqSubmissions_app, (mcqSubmissions_essays _ _ _ H), app_nil_r.
    reflexivity.
  - intros front back e a He. rewrite !EssayRevision_score_submissions.
    rewrite mcqSubmissions_insert; [reflexivity|].
    unfold isMCQ. rewrite He. reflexivity.
Qed.

(** *** The page before the essay revision, and the chat bubble *)

Lemma ChatBubble_score_calculateScore quiz quizAnswers :
  ChatBubble.score quiz quizAnswers = calculateScore (Some quiz) quizAnswers.
Proof. reflexivity. Qed.

Lemma forEach_score_all_mcq quizAnswers quiz idx correct totalMCQ :
  Forall (fun q => isMCQ q = true) quiz ->
  EssayRevision.forEach_score quizAnswers quiz idx correct totalMCQ
  = (forEach_correct quizAnswers quiz idx correct, (totalMCQ + length quiz)%nat).
Proof.
  intros H. revert idx correct totalMCQ.
  induction H as [|q quiz Hq _ IH]; intros idx correct totalMCQ; simpl.
  - f_equal. lia.
  - rewrite Hq, IH. f_equal. lia.
Qed.

(** On a quiz of multiple-choice entries only, and not empty, the two
    revisions of the page agree. *)
Lemma calculateScore_all_mcq quiz quizAnswers :
  Forall (fun q => isMCQ q = true) quiz -> quiz <> [] ->
  calculateScore (Some quiz) quizAnswers
  = EssayRevision.calculateScore (Some quiz) quizAnswers.
Proof.
  intros Hall Hne. unfold calculateScore, EssayRevision.calculateScore.
  rewrite (forEach_score_all_mcq _ _ _ _ _ Hall). simpl.
  destruct quiz as [|q quiz]; [congruence|]. reflexivity.
Qed.

End Score.

Section ScoreClaims.

Import NoteDetailPage Examples.

(** C1 at a quiz of one multiple-choice entry, answered rightly, and one
    essay entry. The score of the specification,
    [round(100 * correctCount / multipleChoiceCount)] over the
    multiple-choice entries, is [100], and [0] on a quiz without
    multiple-choice entry. [calculateScore] of the page and [score] of the
    chat bubble divide the right answers by the length of the quiz: they
    return [50], and NaN on the empty quiz. The essay revision of the page
    returns [100] and [0]. *)
Theorem score_counts_essay_entry :
  multipleChoiceCount [sum_question; essay_question] = 1%nat
  /\ correctCount (first_answers 1) [sum_question; essay_question] = 1%nat
  /\ specified_score [sum_question; essay_question] (first_answers 1) = Int 100
  /\ calculateScore (Some [sum_question; essay_question]) (first_answers 1) = Int 50
  /\ ChatBubble.score [sum_question; essay_question] (first_answers 1) = Int 50
  /\ EssayRevision.calculateScore (Some [sum_question; essay_question]) (first_answers 1)
     = Int 100
  /\ specified_score [] (first_answers 0) = Int 0
  /\ calculateScore (Some []) (first_answers 0) = NaN
  /\ ChatBubble.score [] (first_answers 0) = NaN
  /\ EssayRevision.calculateScore (Some []) (first_answers 0) = Int 0.
Proof. repeat split; vm_compute; reflexivity. Qed.

(** C2 at the quiz of one multiple-choice entry, answered rightly, before
    and after an essay entry is added behind it, under the same answers:
    the multiple-choice entries and their submitted answers are the same,
    [calculateScore] of the page and [score] of the chat bubble go from
    [100] to [50]; the essay revision of the page stays at [100]. *)
Theorem score_changes_with_essay_entry :
  type essay_question = Some essay
  /\ options essay_question = Some []
  /\ mcqSubmissions (first_answers 1) ([sum_question] ++ [essay_question]) 0
     = mcqSubmissions (first_answers 1) [sum_question] 0
  /\ calculateScore (Some [sum_question]) (first_answers 1) = Int 100
  /\ calculateScore (Some ([sum_question] ++ [essay_question])) (first_answers 1) = Int 50
  /\ ChatBubble.score [sum_question] (first_answers 1) = Int 100
  /\ ChatBubble.score ([sum_question] ++ [essay_question]) (first_answers 1) = Int 50
  /\ EssayRevision.calculateScore (Some [sum_question]) (first_answers 1) = Int 100
  /\ EssayRevision.calculateScore (Some ([sum_question] ++ [essay_question]))
                                  (first_answers 1) = Int 100.
Proof. repeat split; vm_compute; reflexivity. Qed.

End ScoreClaims.

(** ** Properties of the content step *)

Section NoteContent.

Import GeminiService Examples.

Lemma strip_prefix_i_canonical p m rest :
  map canonicalize m = map canonicalize p ->
  strip_prefix_i p (m ++ rest) = Some rest.
Proof.
  revert m. induction p as [|a p IH]; intros [|b m] H; simpl in *; try discriminate.
  - reflexivity.
  - injection H as Hab Hm. rewrite Hab, N.eqb_refl. apply IH, Hm.
Qed.

(** The marker is matched whatever the case of its letters. *)
Lemma parseNoteContent_marker_case m rest :
  map canonicalize m = str "JUDUL:" ->
  parseNoteContent (m ++ rest) = parseNoteContent (str "JUDUL:" ++ rest).
Proof.
  intros H. unfold parseNoteContent, match_title, remove_title_line.
  rewrite (strip_prefix_i_canonical (str "JUDUL:") m rest) by exact H.
  rewrite (strip_prefix_i_canonical (str "JUDUL:") (str "JUDUL:") rest) by reflexivity.
  reflexivity.
Qed.

(** C6. The text [JUDUL: Fotosintesis], a line feed, [Isi bab satu...]
    yields the title [Fotosintesis] and the body [Isi bab satu...]; the
    marker line is gone from the body, and the marker written in lower case
    or in mixed case gives the same result. *)
Theorem parseNoteContent_fotosintesis :
  parseNoteContent (str "JUDUL: Fotosintesis" ++ LF ++ str "Isi bab satu...")
  = (str "Fotosintesis", str "Isi bab satu...")
  /\ startsWithMarker
       (parseNoteContent (str "JUDUL: Fotosintesis" ++ LF ++ str "Isi bab satu...")).2
     = false
  /\ parseNoteContent (str "judul: Fotosintesis" ++ LF ++ str "Isi bab satu...")
     = (str "Fotosintesis", str "Isi bab satu...")
  /\ parseNoteContent (str "Judul: Fotosintesis" ++ LF ++ str "Isi bab satu...")
     = (str "Fotosintesis", str "Isi bab satu...").
Proof. repeat split; vm_compute; reflexivity. Qed.

Lemma dropWhile_head_false {A} (p : A -> bool) (l : list A) :
  (forall c, head l = Some c -> p c = false) -> dropWhile p l = l.
Proof.
  destruct l as [|c l]; intros H; simpl; [reflexivity|].
  rewrite (H c) by reflexivity. reflexivity.
Qed.

(** [trim] leaves a text that neither starts nor ends with white space. *)
Lemma trim_fixed (s : jsstring) :
  (forall c, head s = Some c -> isWhiteSpace c = false) ->
  (forall c, last s = Some c -> isWhiteSpace c = false) ->
  trim s = s.
Proof.
  intros Hh Hl. unfold trim. rewrite (dropWhile_head_false _ s Hh).
  rewrite dropWhile_head_false; [apply rev_involutive|].
  intros c Hc. apply Hl.
  rewrite <- (rev_involutive s). destruct (rev s) as [|c' r]; [discriminate|].
  simpl in Hc. injection Hc as ->. simpl. apply last_snoc.
Qed.

Lemma takeWhile_app_stop {A} (p : A -> bool) (l : list A) x r :
  Forall (fun c => p c = true) l -> p x = false ->
  takeWhile p (l ++ x :: r) = l.
Proof.
  intros Hl Hx. induction Hl as [|c l Hc _ IH]; simpl.
  - rewrite Hx. reflexivity.
  - rewrite Hc, IH. reflexivity.
Qed.

Lemma dropWhile_app_stop {A} (p : A -> bool) (l : list A) x r :
  Forall (fun c => p c = true) l -> p x = false ->
  dropWhile p (l ++ x :: r) = x :: r.
Proof.
  intros Hl Hx. induction Hl as [|c l Hc _ IH]; simpl.
  - rewrite Hx. reflexivity.
  - rewrite Hc. exact IH.
Qed.

(** The convention of the content step in general: a marker in any case, a
    blank, a title on one line, a line feed and a body, title and body
    without white space at their ends, are read back as that title and
    that body. *)
Lemma parseNoteContent_marker_line (m title_ body_ : jsstring) :
  map canonicalize m = str "JUDUL:" ->
  title_ <> [] ->
  Forall (fun c => notLineTerminator c = true) title_ ->
  (forall c, head title_ = Some c -> isWhiteSpace c = false) ->
  (forall c, last title_ = Some c -> isWhiteSpace c = false) ->
  (forall c, head body_ = Some c -> isWhiteSpace c = false) ->
  (forall c, last body_ = Some c -> isWhiteSpace c = false) ->
  parseNoteContent (m ++ 32%N :: title_ ++ LF ++ body_) = (title_, body_).
Proof.
  intros Hm Hne Hline Hth Htl Hbh Hbl.
  unfold parseNoteContent, match_title, remove_title_line.
  rewrite (strip_prefix_i_canonical (str "JUDUL:") m _) by exact Hm.
  cbn [dropWhile]. change (isWhiteSpace 32) with true.
  change (notLineTerminator 32) with true. cbn iota.
  unfold LF. cbn [app].
  rewrite (dropWhile_app_stop notLineTerminator title_ 10%N body_ Hline eq_refl).
  assert (Hws : dropWhile isWhiteSpace (title_ ++ 10%N :: body_) = title_ ++ 10%N :: body_).
  { apply dropWhile_head_false. intros c Hc. apply Hth.
    destruct title_; [congruence | exact Hc]. }
  rewrite Hws.
  rewrite (takeWhile_app_stop notLineTerminator title_ 10%N body_ Hline eq_refl).
  rewrite (trim_fixed title_ Hth Htl), (trim_fixed body_ Hbh Hbl). reflexivity.
Qed.

(** C7, as the service computes it. For every text that does not start with
    the title marker the title is the placeholder [Ringkasan Materi] and the
    body is the text with the white space at its two ends removed: the
    entire text, unmodified, when it neither starts nor ends with white
    space. *)
Theorem parseNoteContent_without_marker (rawText : jsstring) :
  startsWithMarker rawText = false ->
  parseNoteContent rawText = (str "Ringkasan Materi", trim rawText)
  /\ ((forall c, head rawText = Some c -> isWhiteSpace c = false) ->
      (forall c, last rawText = Some c -> isWhiteSpace c = false) ->
      (parseNoteContent rawText).2 = rawText).
Proof.
  intros H. unfold startsWithMarker in H.
  assert (Hp : parseNoteContent rawText = (str "Ringkasan Materi", trim rawText)).
  { unfold parseNoteContent, match_title, remove_title_line.
    destruct (strip_prefix_i (str "JUDUL:") rawText); [discriminate|reflexivity]. }
  split; [exact Hp|].
  intros Hh Hl. rewrite Hp. simpl. apply trim_fixed; assumption.
Qed.

Lemma parseNoteContent_without_marker_witness :
  parseNoteContent (str "Isi bab satu...") = (str "Ringkasan Materi", trim (str "Isi bab satu..."))
  /\ (parseNoteContent (str "Isi bab satu...")).2 = str "Isi bab satu...".
Proof.
  destruct (parseNoteContent_without_marker (str "Isi bab satu...")) as [H1 H2].
  - vm_compute. reflexivity.
  - split; [exact H1|]. apply H2.
    + intros c Hc. vm_compute in Hc. injection Hc as <-. vm_compute. reflexivity.
    + intros c Hc. vm_compute in Hc. injection Hc as <-. vm_compute. reflexivity.
Defined.

(** A response that ends with a line feed, as model responses do, has no
    marker and is not returned unmodified. *)
Lemma parseNoteContent_trailing_newline :
  startsWithMarker (str "Isi bab satu..." ++ LF) = false
  /\ parseNoteContent (str "Isi bab satu..." ++ LF)
     = (str "Ringkasan Materi", str "Isi bab satu...")
  /\ (parseNoteContent (str "Isi bab satu..." ++ LF)).2 <> str "Isi bab satu..." ++ LF.
Proof.
  repeat split; try (vm_compute; reflexivity).
  vm_compute. discriminate.
Qed.

End NoteContent.

(** ** Properties of the quiz step *)

Section QuizPayload.

Import GeminiService Examples.

Implicit Types (env : Env) (parsed : JSValue).

Lemma get_set_prop_eq k v ps : get_prop k (set_prop k v ps) = Some v.
Proof.
  induction ps as [|[k' v'] ps IH]; simpl.
  - rewrite bool_decide_eq_true_2 by reflexivity. reflexivity.
  - case_bool_decide as E; simpl.
    + rewrite bool_decide_eq_true_2 by reflexivity. reflexivity.
    + rewrite bool_decide_eq_false_2 by exact E. exact IH.
Qed.

Lemma get_set_prop_ne k k' v ps :
  k' <> k -> get_prop k' (set_prop k v ps) = get_prop k' ps.
Proof.
  intros Hne. induction ps as [|[k0 v0] ps IH]; simpl.
  - rewrite bool_decide_eq_false_2 by congruence. reflexivity.
  - case_bool_decide as E; simpl.
    + subst k0. rewrite !bool_decide_eq_false_2 by congruence. reflexivity.
    + case_bool_decide; [reflexivity | exact IH].
Qed.

Lemma or_empty_map_array f x items :
  array_or_missing x items -> or_empty_map f x = Return (map f items).
Proof.
  intros [-> | [Hf ->]]; unfold or_empty_map; simpl; [reflexivity|].
  rewrite Hf. reflexivity.
Qed.

Lemma or_empty_map_Return f x l :
  or_empty_map f x = Return l ->
  exists items, array_or_missing x items /\ l = map f items.
Proof.
  unfold or_empty_map. destruct (truthy x) eqn:Ht.
  - destruct x; try discriminate. intros [= <-].
    eexists. split; [left; reflexivity | reflexivity].
  - intros [= <-]. exists []. split; [right; split; [exact Ht | reflexivity] | reflexivity].
Qed.

(** A payload is taken exactly when its two properties are arrays or
    missing, and the quiz is then what C10 says. *)
Lemma quiz_of_parsed_arrays parsed mcqs essays :
  payload_arrays parsed mcqs essays ->
  quiz_of_parsed parsed = Return (map tag_mcq mcqs ++ map tag_essay essays).
Proof.
  intros (vm & ve & Hm & Am & He & Ae). unfold quiz_of_parsed.
  rewrite Hm. simpl. rewrite (or_empty_map_array _ _ _ Am). simpl.
  rewrite He. simpl. rewrite (or_empty_map_array _ _ _ Ae). reflexivity.
Qed.

Lemma quiz_of_parsed_Return parsed quiz :
  quiz_of_parsed parsed = Return quiz ->
  exists mcqs essays,
    payload_arrays parsed mcqs essays
    /\ quiz = map tag_mcq mcqs ++ map tag_essay essays.
Proof.
  unfold quiz_of_parsed.
  destruct (read_property (str "mcq_questions") parsed) as [vm|] eqn:Hm; [|discriminate].
  simpl. destruct (or_empty_map tag_mcq vm) as [lm|] eqn:Em; [|discriminate].
  simpl. destruct (read_property (str "essay_questions") parsed) as [ve|] eqn:He; [|discriminate].
  simpl. destruct (or_empty_map tag_essay ve) as [le|] eqn:Ee; [|discriminate].
  simpl. intros [= <-].
  apply or_empty_map_Return in Em as (mcqs & Am & ->).
  apply or_empty_map_Return in Ee as (essays & Ae & ->).
  exists mcqs, essays. split; [|reflexivity].
  exists vm, ve. auto.
Qed.

Lemma parse_stage_Return env t quiz :
  parse_stage env t = Return quiz ->
  exists parsed, JSON5_parse env t = Some parsed /\ quiz_of_parsed parsed = Return quiz.
Proof.
  unfold parse_stage, parse. destruct (JSON5_parse env t) as [parsed|]; [|discriminate].
  simpl. intros H. exists parsed. auto.
Qed.

Lemma parse_stage_refused env t :
  JSON5_parse env t = None -> parse_stage env t = Throw SyntaxError.
Proof. intros H. unfold parse_stage, parse. rewrite H. reflexivity. Qed.

(** The parsing stages never let an exception out. *)
Lemma parseQuizPayload_returns env t : exists quiz, parseQuizPayload env t = Return quiz.
Proof.
  unfold parseQuizPayload.
  destruct (parse_stage env t) as [q|e]; simpl; [eauto|].
  destruct (parse_stage env (remove_fences 0 t)) as [q|e']; simpl; eauto.
Qed.

Lemma regenerateQuiz_returns env content :
  exists quiz, regenerateQuiz env content = Return quiz.
Proof.
  unfold regenerateQuiz. destruct (getAIClient env); [|eauto].
  destruct (generateContent env (quizRequest content)) as [[t|]|e]; simpl; eauto.
  destruct (truthy_string t); [|simpl; eauto].
  destruct (parseQuizPayload_returns env t) as [q Hq]. rewrite Hq. simpl. eauto.
Qed.

(** C5. A response text that [JSON5.parse] refuses both as it is and with
    its fences removed yields the empty quiz as a normal result, of the
    parsing stages and of [regenerateQuiz] whose model call answered with
    that text: no exception leaves either. *)
Theorem parseQuizPayload_unparsable env rawText :
  JSON5_parse env rawText = None ->
  JSON5_parse env (remove_fences 0 rawText) = None ->
  parseQuizPayload env rawText = Return []
  /\ (forall content,
        generateContent env (quizRequest content) = Return (Some rawText) ->
        regenerateQuiz env content = Return []).
Proof.
  intros H1 H2.
  assert (Hp : parseQuizPayload env rawText = Return []).
  { unfold parseQuizPayload.
    rewrite (parse_stage_refused _ _ H1). simpl.
    rewrite (parse_stage_refused _ _ H2). reflexivity. }
  split; [exact Hp|].
  intros content Hg. unfold regenerateQuiz.
  destruct (getAIClient env); [|reflexivity].
  rewrite Hg. simpl. destruct (truthy_string rawText); [|reflexivity].
  rewrite Hp. reflexivity.
Qed.

Lemma parseQuizPayload_unparsable_witness :
  parseQuizPayload env_no_key (str "Maaf, saya tidak bisa membuat kuis.") = Return [].
Proof.
  apply (parseQuizPayload_unparsable env_no_key
           (str "Maaf, saya tidak bisa membuat kuis.")).
  - vm_compute. reflexivity.
  - vm_compute. reflexivity.
Defined.

End QuizPayload.

Section QuizMapping.

Import GeminiService Examples.

Implicit Types (env : Env) (parsed : JSValue).

Lemma tag_mcq_type q : entry_prop (str "type") (tag_mcq q) = Some (JStr (str "mcq")).
Proof. unfold tag_mcq. simpl. apply get_set_prop_eq. Qed.

Lemma tag_essay_type q :
  entry_prop (str "type") (tag_essay q) = Some (JStr (str "essay"))
  /\ entry_prop (str "options") (tag_essay q) = Some (JArr []).
Proof.
  unfold tag_essay. simpl. split.
  - rewrite get_set_prop_ne by discriminate. apply get_set_prop_eq.
  - apply get_set_prop_eq.
Qed.

(** The other properties of an entry are those of the source element. *)
Lemma tag_mcq_other q k :
  k <> str "type" -> entry_prop k (tag_mcq q) = get_prop k (spread_props q).
Proof. intros H. unfold tag_mcq. simpl. apply get_set_prop_ne, H. Qed.

Lemma tag_essay_other q k :
  k <> str "type" -> k <> str "options" ->
  entry_prop k (tag_essay q) = get_prop k (spread_props q).
Proof.
  intros H1 H2. unfold tag_essay. simpl.
  rewrite get_set_prop_ne by exact H2. apply get_set_prop_ne, H1.
Qed.

Lemma array_or_missing_undefined items :
  array_or_missing JUndefined items -> items = [].
Proof. intros [H | [_ H]]; [discriminate | exact H]. Qed.

(** C10. When a parsing stage takes the payload, the quiz returned is made of
    the entries of the [mcq_questions] array, in their order and tagged
    [mcq], followed by the entries of the [essay_questions] array, in their
    order, tagged [essay] and given the empty [options]; an array that is
    missing contributes no entry. *)
Theorem parseQuizPayload_accepted env rawText quiz :
  parse_stage env rawText = Return quiz
  \/ (exists e, parse_stage env rawText = Throw e
                /\ parse_stage env (remove_fences 0 rawText) = Return quiz) ->
  parseQuizPayload env rawText = Return quiz
  /\ exists parsed mcqs essays,
       (JSON5_parse env rawText = Some parsed
        \/ JSON5_parse env (remove_fences 0 rawText) = Some parsed)
       /\ payload_arrays parsed mcqs essays
       /\ quiz = map tag_mcq mcqs ++ map tag_essay essays
       /\ Forall (fun entry => entry_prop (str "type") entry = Some (JStr (str "mcq")))
                 (map tag_mcq mcqs)
       /\ Forall (fun entry =>
                    entry_prop (str "type") entry = Some (JStr (str "essay"))
                    /\ entry_prop (str "options") entry = Some (JArr []))
                 (map tag_essay essays)
       /\ (forall ps, parsed = JObj ps ->
                      get_prop (str "mcq_questions") ps = None -> mcqs = [])
       /\ (forall ps, parsed = JObj ps ->
                      get_prop (str "essay_questions") ps = None -> essays = []).
Proof.
  intros Hacc.
  assert (Hret : parseQuizPayload env rawText = Return quiz).
  { unfold parseQuizPayload. destruct Hacc as [H | (e & H1 & H2)].
    - rewrite H. reflexivity.
    - rewrite H1. simpl. rewrite H2. reflexivity. }
  split; [exact Hret|].
  assert (Hstage : exists t, (t = rawText \/ t = remove_fences 0 rawText)
                             /\ parse_stage env t = Return quiz).
  { destruct Hacc as [H | (e & _ & H)]; eauto. }
  destruct Hstage as (t & Ht & Hq).
  apply parse_stage_Return in Hq as (parsed & Hparse & Hquiz).
  apply quiz_of_parsed_Return in Hquiz as (mcqs & essays & Harr & ->).
  exists parsed, mcqs, essays.
  split; [destruct Ht as [-> | ->]; auto|].
  split; [exact Harr|]. split; [reflexivity|].
  split; [apply Forall_map, Forall_forall; intros q _; apply tag_mcq_type|].
  split; [apply Forall_map, Forall_forall; intros q _; apply tag_essay_type|].
  destruct Harr as (vm & ve & Hm & Am & He & Ae).
  split; intros ps -> Hnone; simpl in *.
  - rewrite Hnone in Hm. injection Hm as <-. apply array_or_missing_undefined, Am.
  - rewrite Hnone in He. injection He as <-. apply array_or_missing_undefined, Ae.
Qed.

Lemma parseQuizPayload_accepted_witness :
  parseQuizPayload env_no_key sum_payload
  = Return [tag_mcq (JObj [(str "question", JStr (str "2+2?"));
                           (str "options", JArr [JStr (str "3"); JStr (str "4"); JStr (str "5")]);
                           (str "answer", JStr (str "4"));
                           (str "explanation", JStr (str "basic addition"))])].
Proof.
  apply (parseQuizPayload_accepted env_no_key sum_payload).
  left. vm_compute. reflexivity.
Defined.

(** *** Fences *)

Lemma remove_fences_plain (s rest : jsstring) :
  Forall (fun c => c <> 96%N) s ->
  remove_fences 0 (s ++ rest) = s ++ remove_fences 0 rest.
Proof.
  induction 1 as [|c s Hc _ IH]; [reflexivity|].
  change ((c :: s) ++ rest) with (c :: (s ++ rest)).
  cbn [remove_fences].
  assert (E : forall p t, startsWith (96%N :: p) (c :: t) = false).
  { intros p t. cbn [startsWith].
    rewrite (proj2 (N.eqb_neq 96 c)) by congruence. reflexivity. }
  change fence_json with (96%N :: List.tl fence_json).
  change fence with (96%N :: List.tl fence).
  rewrite !E. simpl. rewrite IH. reflexivity.
Qed.

Lemma remove_fences_opening (rest : jsstring) :
  remove_fences 0 (str "```json" ++ LF ++ rest) = remove_fences 0 rest.
Proof. reflexivity. Qed.

(** A fenced payload that holds no backquote of its own is read as the
    payload itself, by a reader that refuses the fenced text and overlooks a
    trailing line feed. *)
Lemma parseQuizPayload_fenced_plain env (payload : jsstring) :
  Forall (fun c => c <> 96%N) payload ->
  JSON5_parse env (str "```json" ++ LF ++ payload ++ LF ++ str "```") = None ->
  JSON5_parse env (payload ++ LF) = JSON5_parse env payload ->
  parseQuizPayload env (str "```json" ++ LF ++ payload ++ LF ++ str "```")
  = parseQuizPayload env payload.
Proof.
  intros Hplain Hrefused Hlf. unfold parseQuizPayload.
  rewrite (parse_stage_refused _ _ Hrefused). cbn [try_catch].
  assert (Hclean : remove_fences 0 (str "```json" ++ LF ++ payload ++ LF ++ str "```")
                   = payload ++ LF).
  { rewrite remove_fences_opening.
    rewrite remove_fences_plain by exact Hplain. reflexivity. }
  rewrite Hclean.
  replace (remove_fences 0 payload) with payload
    by (rewrite <- (app_nil_r payload) at 2; rewrite remove_fences_plain by exact Hplain;
        simpl; rewrite app_nil_r; reflexivity).
  assert (Hstage : parse_stage env (payload ++ LF) = parse_stage env payload).
  { unfold parse_stage, parse. rewrite Hlf. reflexivity. }
  rewrite Hstage. destruct (parse_stage env payload) as [q|e] eqn:E; simpl; [reflexivity|].
  reflexivity.
Qed.

(** C4 at a payload whose essay question shows a code block: parsed as it
    is, the question keeps its fences; wrapped in a json fence, the clean-up
    removes the fences of the question with those of the wrapper, and the
    quiz returned is another one. *)
Theorem parseQuizPayload_fenced_code :
  parseQuizPayload env_no_key code_payload
  = Return [tag_essay (JObj [(str "question", JStr (str "Lengkapi: ```c int x = __; ```"));
                             (str "answer", JStr (str "5"));
                             (str "explanation", JStr (str "nilai awal"))])]
  /\ JSON5_parse env_no_key fenced_code_payload = None
  /\ parseQuizPayload env_no_key fenced_code_payload
     = Return [tag_essay (JObj [(str "question", JStr (str "Lengkapi: c int x = __; "));
                                (str "answer", JStr (str "5"));
                                (str "explanation", JStr (str "nilai awal"))])]
  /\ parseQuizPayload env_no_key fenced_code_payload
     <> parseQuizPayload env_no_key code_payload.
Proof.
  repeat split; try (vm_compute; reflexivity).
  vm_compute. discriminate.
Qed.

End QuizMapping.

(** ** Properties of the orchestration *)

Section Orchestration.

Import GeminiService Examples.

Implicit Types (env : Env) (content contextText rawText : jsstring).

(** C9. The prompt of the quiz step embeds the material unchanged when it
    has at most 30,000 code units, and otherwise its first 30,000 code units
    followed by three dots; that prompt is what the request carries. *)
Theorem quizPrompt_excerpt content :
  contents (quizRequest content) = plainPrompt (quizPrompt content)
  /\ ((length_ content <= 30000)%N ->
      safeContent content = content
      /\ quizPrompt content = quizPrompt_head ++ content ++ quizPrompt_tail)
  /\ ((30000 < length_ content)%N ->
      safeContent content = slice0 30000 content ++ str "..."
      /\ length_ (slice0 30000 content) = 30000%N
      /\ quizPrompt content
         = quizPrompt_head ++ (slice0 30000 content ++ str "...") ++ quizPrompt_tail).
Proof.
  split; [reflexivity|]. unfold quizPrompt, safeContent. split; intros H.
  - rewrite (proj2 (N.ltb_ge 30000 (length_ content))) by exact H. auto.
  - rewrite (proj2 (N.ltb_lt 30000 (length_ content))) by exact H.
    split; [reflexivity|]. split; [|reflexivity].
    unfold slice0, length_ in *. rewrite length_take. lia.
Qed.

Lemma quizPrompt_excerpt_witness :
  quizPrompt fotosintesis = quizPrompt_head ++ fotosintesis ++ quizPrompt_tail
  /\ safeContent (repeat 97%N (N.to_nat 30001))
     = slice0 30000 (repeat 97%N (N.to_nat 30001)) ++ str "...".
Proof.
  split.
  - apply (quizPrompt_excerpt fotosintesis). vm_compute. discriminate.
  - apply (quizPrompt_excerpt (repeat 97%N (N.to_nat 30001))).
    unfold length_. rewrite repeat_length. lia.
Defined.

(** C3, as the service answers. Without a key [generateNoteSummary] returns
    normally, with the empty quiz, the fixed message asking for the key as
    content and the fixed title [Error Konfigurasi], whatever the date. *)
Theorem generateNoteSummary_no_key env images contextText fileCount :
  getApiKey env = None ->
  generateNoteSummary env images contextText fileCount
  = Return {| title := str "Error Konfigurasi";
              content := str "API Key belum di-setting. Mohon masukkan API Key di menu Pengaturan.";
              quiz := [] |}.
Proof.
  intros H. unfold generateNoteSummary, getAIClient. rewrite H. reflexivity.
Qed.

Lemma generateNoteSummary_no_key_witness :
  generateNoteSummary env_no_key [] (str "teks dokumen") 1
  = Return {| title := str "Error Konfigurasi";
              content := str "API Key belum di-setting. Mohon masukkan API Key di menu Pengaturan.";
              quiz := [] |}.
Proof.
  apply (generateNoteSummary_no_key env_no_key). vm_compute. reflexivity.
Defined.

(** Without a key the title does not hold the date of the day, neither in
    the summary nor in the note stored for it. *)
Lemma generateNoteSummary_no_key_title :
  getApiKey env_no_key = None
  /\ exists summary,
       generateNoteSummary env_no_key [] (str "teks dokumen") 1 = Return summary
       /\ quiz summary = []
       /\ title summary = str "Error Konfigurasi"
       /\ includes (toLocaleDateString env_no_key) (title summary) = false
       /\ includes (toLocaleDateString env_no_key)
                   (ChatApp.newNote_title env_no_key summary) = false.
Proof.
  split; [vm_compute; reflexivity|].
  eexists. split; [vm_compute; reflexivity|].
  repeat split; vm_compute; reflexivity.
Qed.

(** The date enters the title in the [catch] branch only, that is with a
    key and a content step that fails. *)
Lemma generateNoteSummary_content_failure env images contextText fileCount ai :
  getAIClient env = Some ai ->
  (exists e, generateContent env (contentRequest images contextText) = Throw e)
  \/ generateContent env (contentRequest images contextText) = Return None
  \/ generateContent env (contentRequest images contextText) = Return (Some []) ->
  generateNoteSummary env images contextText fileCount
  = Return (degraded_summary env contextText)
  /\ title (degraded_summary env contextText) = str "Catatan " ++ toLocaleDateString env
  /\ quiz (degraded_summary env contextText) = [].
Proof.
  intros Hai H. unfold generateNoteSummary. rewrite Hai.
  destruct H as [[e ->] | [-> | ->]]; repeat split; reflexivity.
Qed.

Lemma regenerateQuiz_fails env content :
  QuizStepFails env content -> regenerateQuiz env content = Return [].
Proof.
  intros H. unfold regenerateQuiz.
  destruct H as [H | e H | H | H | t e1 e2 H H1 H2].
  - rewrite H. reflexivity.
  - destruct (getAIClient env); [|reflexivity]. rewrite H. reflexivity.
  - destruct (getAIClient env); [|reflexivity]. rewrite H. reflexivity.
  - destruct (getAIClient env); [|reflexivity]. rewrite H. reflexivity.
  - destruct (getAIClient env); [|reflexivity]. rewrite H. simpl.
    destruct (truthy_string t); [|reflexivity].
    unfold parseQuizPayload. rewrite H1. simpl. rewrite H2. reflexivity.
Qed.

(** C8. With a key and a content step that answers a non-empty text,
    [generateNoteSummary] returns normally the title and the content parsed
    from that text together with the quiz of the quiz step; when the quiz
    step fails, in whichever way, that quiz is empty and title and content
    are the same. *)
Theorem generateNoteSummary_quiz_degrades env images contextText fileCount ai rawText :
  getAIClient env = Some ai ->
  generateContent env (contentRequest images contextText) = Return (Some rawText) ->
  rawText <> [] ->
  exists quiz_,
    regenerateQuiz env (parseNoteContent rawText).2 = Return quiz_
    /\ generateNoteSummary env images contextText fileCount
       = Return {| title := (parseNoteContent rawText).1;
                   content := (parseNoteContent rawText).2;
                   quiz := quiz_ |}
    /\ (QuizStepFails env (parseNoteContent rawText).2 -> quiz_ = []).
Proof.
  intros Hai Hgen Hne.
  destruct (regenerateQuiz_returns env (parseNoteContent rawText).2) as [q Hq].
  exists q. split; [exact Hq|]. split.
  - unfold generateNoteSummary. rewrite Hai, Hgen. simpl.
    destruct rawText as [|c r]; [congruence|].
    unfold parseNoteContent in Hq |- *. simpl in Hq |- *.
    rewrite Hq. reflexivity.
  - intros Hfail. apply regenerateQuiz_fails in Hfail. congruence.
Qed.

Lemma generateNoteSummary_quiz_degrades_witness :
  generateNoteSummary env_quiz_down [] [] 1
  = Return {| title := str "Fotosintesis";
              content := str "Isi bab satu...";
              quiz := [] |}.
Proof.
  destruct (generateNoteSummary_quiz_degrades env_quiz_down [] [] 1
              {| apiKey := str "AIza-demo" |} fotosintesis) as (q & Hq & Hsum & Hfail).
  - vm_compute. reflexivity.
  - reflexivity.
  - discriminate.
  - rewrite Hsum. rewrite Hfail.
    + vm_compute. reflexivity.
    + apply (quiz_rejected _ _ Rejected). reflexivity.
Defined.

End Orchestration.

(** ** Further properties *)

(** *** White space at the ends of a text *)

Section Trim.

Lemma dropWhile_suffix {A} (p : A -> bool) (l : list A) :
  exists pre, l = pre ++ dropWhile p l /\ Forall (fun c => p c = true) pre.
Proof.
  induction l as [|c l (pre & Hl & Hpre)]; simpl.
  - exists []. split; [reflexivity | constructor].
  - destruct (p c) eqn:E.
    + exists (c :: pre). split; [simpl; congruence | constructor; assumption].
    + exists []. split; [reflexivity | constructor].
Qed.

Lemma dropWhile_head {A} (p : A -> bool) (l : list A) c :
  head (dropWhile p l) = Some c -> p c = false.
Proof.
  induction l as [|x l IH]; simpl; [discriminate|].
  destruct (p x) eqn:E; [exact IH|]. simpl. intros [= <-]. exact E.
Qed.

Lemma dropWhile_length {A} (p : A -> bool) (l : list A) :
  (length (dropWhile p l) <= length l)%nat.
Proof.
  destruct (dropWhile_suffix p l) as (pre & Hl & _).
  rewrite Hl at 2. rewrite length_app. lia.
Qed.

Lemma dropWhile_Forall {A} (p : A -> bool) (P : A -> Prop) (l : list A) :
  Forall P l -> Forall P (dropWhile p l).
Proof.
  intros H. destruct (dropWhile_suffix p l) as (pre & Hl & _).
  rewrite Hl in H. apply Forall_app in H. tauto.
Qed.

Lemma last_rev_head {A} (l : list A) : last (rev l) = head l.
Proof. destruct l as [|c l]; [reflexivity|]. simpl. apply last_snoc. Qed.

Lemma head_rev_last {A} (l : list A) : head (rev l) = last l.
Proof. rewrite <- (rev_involutive l) at 2. symmetry. apply last_rev_head. Qed.

(** What [trim] returns neither starts nor ends with white space. *)
Lemma trim_ends (s : jsstring) :
  (forall c, head (trim s) = Some c -> isWhiteSpace c = false)
  /\ (forall c, last (trim s) = Some c -> isWhiteSpace c = false).
Proof.
  unfold trim. set (a := dropWhile isWhiteSpace s).
  split; intros c Hc.
  - rewrite head_rev_last in Hc.
    destruct (dropWhile_suffix isWhiteSpace (rev a)) as (pre & Hl & _).
    destruct (dropWhile isWhiteSpace (rev a)) as [|x b] eqn:Eb; [discriminate|].
    assert (Hlast : last (rev a) = Some c).
    { rewrite Hl. rewrite last_app. rewrite Hc. reflexivity. }
    rewrite last_rev_head in Hlast. exact (dropWhile_head _ _ _ Hlast).
  - rewrite last_rev_head in Hc. exact (dropWhile_head _ _ _ Hc).
Qed.

Lemma trim_idempotent (s : jsstring) : trim (trim s) = trim s.
Proof. destruct (trim_ends s) as [Hh Hl]. apply trim_fixed; assumption. Qed.

Lemma trim_length (s : jsstring) : (length (trim s) <= length s)%nat.
Proof.
  unfold trim. rewrite length_rev.
  etransitivity; [apply dropWhile_length|]. rewrite length_rev.
  apply dropWhile_length.
Qed.

Lemma trim_Forall (P : N -> Prop) (s : jsstring) : Forall P s -> Forall P (trim s).
Proof.
  intros H. unfold trim.
  apply Forall_rev, dropWhile_Forall, Forall_rev, dropWhile_Forall, H.
Qed.

Lemma trim_nil_iff_blank (s : jsstring) :
  trim s = [] <-> Forall (fun c => isWhiteSpace c = true) s.
Proof.
  unfold trim. split.
  - intros H. apply (f_equal (@rev N)) in H. rewrite rev_involutive in H. simpl in H.
    destruct (dropWhile_suffix isWhiteSpace s) as (pre & Hs & Hpre).
    destruct (dropWhile isWhiteSpace s) as [|c a] eqn:Ea.
    + rewrite Hs, app_nil_r. exact Hpre.
    + exfalso.
      destruct (dropWhile_suffix isWhiteSpace (rev (c :: a))) as (pre' & Hr & Hpre').
      rewrite H, app_nil_r in Hr.
      assert (Hc : isWhiteSpace c = true).
      { rewrite <- Hr in Hpre'. apply Forall_rev in Hpre'.
        rewrite rev_involutive in Hpre'. inversion Hpre'. assumption. }
      pose proof (dropWhile_head isWhiteSpace s c) as Hn. rewrite Ea in Hn.
      specialize (Hn eq_refl). congruence.
  - intros H.
    assert (Ha : forall l : jsstring, Forall (fun c => isWhiteSpace c = true) l ->
                                      dropWhile isWhiteSpace l = []).
    { induction 1 as [|c l Hc _ IH]; simpl; [reflexivity|]. rewrite Hc. exact IH. }
    rewrite (Ha s H). reflexivity.
Qed.

End Trim.

(** *** The key and the client *)

Section ApiKeys.

Import GeminiService ChatAppHandlers Examples.

Implicit Types (env : Env).

Lemma trim_nonempty_truthy (s : jsstring) :
  trim s <> [] -> truthy_string s = true /\ (0 <? length_ (trim s))%N = true.
Proof.
  intros H. split.
  - destruct s; [contradiction H; reflexivity | reflexivity].
  - destruct (trim s); [congruence | reflexivity].
Qed.

Lemma key_of_localStorage_nonempty env k :
  key_of_localStorage env = Some k -> k <> [].
Proof.
  unfold key_of_localStorage. destruct (localStorage_gemini_api_key env) as [l|]; [|discriminate].
  destruct l; simpl; [discriminate|]. destruct (_ <? _)%N; [|discriminate].
  intros [= <-]. discriminate.
Qed.

Lemma key_of_vite_nonempty env k : key_of_vite env = Some k -> k <> [].
Proof.
  unfold key_of_vite. destruct (VITE_API_KEY env) as [l|]; [|discriminate].
  destruct l; simpl; [discriminate|]. intros [= <-]. discriminate.
Qed.

Lemma key_of_process_nonempty env k :
  key_of_process env = Some k -> k <> [] /\ k <> str "undefined".
Proof.
  unfold key_of_process. destruct (API_KEY env) as [l|]; [|discriminate].
  destruct l as [|c l]; simpl; [discriminate|].
  case_bool_decide as E; simpl; [discriminate|].
  intros [= <-]. split; [discriminate | exact E].
Qed.

Lemma getApiKey_nonempty env k : getApiKey env = Some k -> k <> [].
Proof.
  unfold getApiKey.
  destruct (key_of_localStorage env) as [l|] eqn:El.
  { intros [= <-]. exact (key_of_localStorage_nonempty _ _ El). }
  destruct (key_of_vite env) as [v|] eqn:Ev.
  { intros [= <-]. exact (key_of_vite_nonempty _ _ Ev). }
  intros H. exact (proj1 (key_of_process_nonempty _ _ H)).
Qed.

Lemma getApiKey_of_stored env localKey :
  localStorage_gemini_api_key env = Some localKey ->
  trim localKey <> [] ->
  getApiKey env = Some localKey.
Proof.
  intros Hl Hk. destruct (trim_nonempty_truthy _ Hk) as [Ht Hlen].
  unfold getApiKey, key_of_localStorage. rewrite Hl, Ht, Hlen. reflexivity.
Qed.

(** A key in the settings that is not blank is the key of the client,
    whatever the build provides; it is returned as it is stored. *)
Theorem getApiKey_stored_key_first env localKey :
  localStorage_gemini_api_key env = Some localKey ->
  trim localKey <> [] ->
  getApiKey env = Some localKey
  /\ getAIClient env = Some {| apiKey := localKey |}.
Proof.
  intros Hl Hk. pose proof (getApiKey_of_stored _ _ Hl Hk) as H.
  split; [exact H|]. unfold getAIClient. rewrite H.
  rewrite (proj1 (trim_nonempty_truthy _ Hk)). reflexivity.
Qed.

Lemma getApiKey_stored_key_first_witness :
  getApiKey env_quiz_down = Some (str "AIza-demo").
Proof.
  apply (getApiKey_stored_key_first env_quiz_down (str "AIza-demo")).
  - reflexivity.
  - vm_compute. discriminate.
Defined.

(** There is a client exactly when a key resolves; its key is then the
    resolved one, never empty, and never the text [undefined] taken from the
    process environment. *)
Theorem getAIClient_resolved_key env :
  (getAIClient env = None <-> getApiKey env = None)
  /\ (forall ai, getAIClient env = Some ai ->
        getApiKey env = Some (apiKey ai) /\ apiKey ai <> [])
  /\ (key_of_localStorage env = None -> key_of_vite env = None ->
      API_KEY env = Some (str "undefined") -> getAIClient env = None).
Proof.
  split; [|split].
  - unfold getAIClient. destruct (getApiKey env) as [k|] eqn:E; [|tauto].
    pose proof (getApiKey_nonempty _ _ E). destruct k; [congruence|].
    simpl. split; discriminate.
  - intros ai. unfold getAIClient. destruct (getApiKey env) as [k|] eqn:E; [|discriminate].
    pose proof (getApiKey_nonempty _ _ E) as Hk. destruct k; [congruence|].
    simpl. intros [= <-]. simpl. split; [reflexivity | discriminate].
  - intros Hl Hv Hp. unfold getAIClient, getApiKey, key_of_process.
    rewrite Hl, Hv, Hp. reflexivity.
Qed.

Lemma getAIClient_resolved_key_witness :
  getApiKey env_quiz_down = Some (str "AIza-demo")
  /\ getAIClient env_no_key = None.
Proof.
  split.
  - apply (proj1 (proj2 (getAIClient_resolved_key env_quiz_down))
             {| apiKey := str "AIza-demo" |}).
    vm_compute. reflexivity.
  - apply (proj1 (getAIClient_resolved_key env_no_key)). vm_compute. reflexivity.
Defined.

(** Saving a key in the settings and resolving it again: an input that is
    not blank resolves to the input without the white space at its ends; a
    blank input removes the stored key, and the key is then the one of the
    build, if any. *)
Theorem handleSaveApiKey_getApiKey env apiKeyInput :
  (trim apiKeyInput <> [] ->
   getApiKey (handleSaveApiKey apiKeyInput env) = Some (trim apiKeyInput))
  /\ (trim apiKeyInput = [] ->
      getApiKey (handleSaveApiKey apiKeyInput env)
      = match key_of_vite env with
        | Some k => Some k
        | None => key_of_process env
        end).
Proof.
  split; intros H.
  - apply getApiKey_of_stored.
    + unfold handleSaveApiKey. simpl. destruct (trim apiKeyInput); [congruence | reflexivity].
    + rewrite trim_idempotent. exact H.
  - unfold getApiKey, key_of_localStorage, handleSaveApiKey. simpl. rewrite H. reflexivity.
Qed.

Lemma handleSaveApiKey_getApiKey_witness :
  getApiKey (handleSaveApiKey (str "  AIza-baru ") env_no_key) = Some (str "AIza-baru")
  /\ getApiKey (handleSaveApiKey (str "   ") env_quiz_down) = None.
Proof.
  split.
  - rewrite (proj1 (handleSaveApiKey_getApiKey env_no_key (str "  AIza-baru "))).
    + vm_compute. reflexivity.
    + vm_compute. discriminate.
  - rewrite (proj2 (handleSaveApiKey_getApiKey env_quiz_down (str "   "))).
    + vm_compute. reflexivity.
    + vm_compute. reflexivity.
Defined.

End ApiKeys.

(** *** Title and body of a generated note *)

Section NoteContentMore.

Import GeminiService Examples.

(** Whatever the response, the title holds no line terminator and neither
    title nor body starts or ends with white space. *)
Theorem parseNoteContent_trimmed (rawText : jsstring) :
  Forall (fun c => isLineTerminator c = false) (parseNoteContent rawText).1
  /\ (forall c, head (parseNoteContent rawText).1 = Some c -> isWhiteSpace c = false)
  /\ (forall c, last (parseNoteContent rawText).1 = Some c -> isWhiteSpace c = false)
  /\ (forall c, head (parseNoteContent rawText).2 = Some c -> isWhiteSpace c = false)
  /\ (forall c, last (parseNoteContent rawText).2 = Some c -> isWhiteSpace c = false).
Proof.
  unfold parseNoteContent, match_title. cbv zeta. cbn [fst snd].
  assert (Htake : forall l : jsstring,
             Forall (fun c => isLineTerminator c = false) (takeWhile notLineTerminator l)).
  { induction l as [|c l IH]; simpl; [constructor|].
    unfold notLineTerminator at 1. destruct (isLineTerminator c) eqn:E; simpl; [constructor|].
    constructor; assumption. }
  destruct (strip_prefix_i (str "JUDUL:") rawText) as [rest|].
  - split; [apply trim_Forall, Htake|].
    split; [apply trim_ends|]. split; [apply trim_ends|].
    split; apply trim_ends.
  - split; [vm_compute; repeat constructor|].
    split; [intros c [= <-]; reflexivity|].
    split; [intros c Hc; vm_compute in Hc; injection Hc as <-; reflexivity|].
    split; apply trim_ends.
Qed.

(** A marker line without a title: the white space after the marker runs
    over the line feed, so that the title is the first line of the body,
    which stays in the body. *)
Theorem parseNoteContent_blank_title (m line rest : jsstring) :
  map canonicalize m = str "JUDUL:" ->
  line <> [] ->
  Forall (fun c => notLineTerminator c = true) line ->
  (forall c, head line = Some c -> isWhiteSpace c = false) ->
  (forall c, last line = Some c -> isWhiteSpace c = false) ->
  parseNoteContent (m ++ LF ++ line ++ LF ++ rest)
  = (line, trim (line ++ LF ++ rest)).
Proof.
  intros Hm Hne Hline Hh Hl.
  unfold parseNoteContent, match_title, remove_title_line.
  rewrite (strip_prefix_i_canonical (str "JUDUL:") m _) by exact Hm.
  unfold LF. cbn [app dropWhile].
  change (isWhiteSpace 10) with true. change (notLineTerminator 10) with false.
  cbn iota.
  assert (Hws : dropWhile isWhiteSpace (line ++ 10%N :: rest) = line ++ 10%N :: rest).
  { apply dropWhile_head_false. intros c Hc. apply Hh.
    destruct line; [congruence | exact Hc]. }
  rewrite Hws.
  rewrite (takeWhile_app_stop notLineTerminator line 10%N rest Hline eq_refl).
  rewrite (trim_fixed line Hh Hl). reflexivity.
Qed.

Lemma parseNoteContent_blank_title_witness :
  parseNoteContent (str "JUDUL:" ++ LF ++ str "Bab 1" ++ LF ++ str "Isi")
  = (str "Bab 1", trim (str "Bab 1" ++ LF ++ str "Isi")).
Proof.
  apply (parseNoteContent_blank_title (str "JUDUL:") (str "Bab 1") (str "Isi")).
  - reflexivity.
  - discriminate.
  - vm_compute. repeat constructor.
  - intros c Hc. vm_compute in Hc. injection Hc as <-. reflexivity.
  - intros c Hc. vm_compute in Hc. injection Hc as <-. reflexivity.
Defined.

(** The convention of the content step read back: a marker in any case, a
    blank, a title on one line, a line feed and a body give that title and
    that body. *)
Lemma parseNoteContent_marker_line_witness :
  parseNoteContent (str "Judul:" ++ 32%N :: str "Sel Hewan" ++ LF ++ str "## Bab 1")
  = (str "Sel Hewan", str "## Bab 1").
Proof.
  apply (parseNoteContent_marker_line (str "Judul:") (str "Sel Hewan") (str "## Bab 1")).
  - reflexivity.
  - discriminate.
  - vm_compute. repeat constructor.
  - intros c Hc. vm_compute in Hc. injection Hc as <-. reflexivity.
  - intros c Hc. vm_compute in Hc. injection Hc as <-. reflexivity.
  - intros c Hc. vm_compute in Hc. injection Hc as <-. reflexivity.
  - intros c Hc. vm_compute in Hc. injection Hc as <-. reflexivity.
Defined.

End NoteContentMore.

(** *** The quiz step and the orchestration, whatever the collaborators do *)

Section QuizStepMore.

Import GeminiService Examples.

Implicit Types (env : Env) (content contextText : jsstring).





(** Neither entry point lets an exception out, whatever the model, the
    reader and the key stores answer; without a key the quiz step returns
    the empty quiz. *)
Theorem entry_points_never_throw env :
  (forall content, exists quiz_, regenerateQuiz env content = Return quiz_)
  /\ (forall images contextText fileCount,
        exists summary,
          generateNoteSummary env images contextText fileCount = Return summary)
  /\ (getApiKey env = None -> forall content, regenerateQuiz env content = Return []).
Proof.
  split; [|split].
  - intros content. apply regenerateQuiz_returns.
  - intros images contextText fileCount. unfold generateNoteSummary.
    destruct (getAIClient env); [|eauto].
    destruct (generateContent env (contentRequest images contextText)) as [[t|]|e];
      simpl; eauto.
    destruct t as [|c r]; [simpl; eauto|].
    destruct (regenerateQuiz_returns env (parseNoteContent (c :: r)).2) as [q Hq].
    unfold parseNoteContent in Hq |- *. simpl in Hq |- *. rewrite Hq. simpl. eauto.
  - intros H content. unfold regenerateQuiz, getAIClient. rewrite H. reflexivity.
Qed.

Lemma entry_points_never_throw_witness :
  regenerateQuiz env_no_key fotosintesis = Return [].
Proof.
  apply (proj2 (proj2 (entry_points_never_throw env_no_key))).
  vm_compute. reflexivity.
Defined.

(** The material sent to the quiz generator never exceeds 30,003 code
    units, the prompt never exceeds the template by more than that, and
    capping a capped text changes nothing. *)
Theorem safeContent_bounded content :
  (length_ (safeContent content) <= 30003)%N
  /\ (length_ (quizPrompt content)
      <= length_ quizPrompt_head + 30003 + length_ quizPrompt_tail)%N
  /\ safeContent (safeContent content) = safeContent content.
Proof.
  assert (Hlen : (length_ (safeContent content) <= 30003)%N).
  { unfold safeContent. destruct (30000 <? length_ content)%N eqn:E.
    - unfold length_, slice0. rewrite length_app, length_take.
      change (length (str "...")) with 3%nat. lia.
    - apply N.ltb_ge in E. lia. }
  split; [exact Hlen|]. split.
  - unfold quizPrompt, length_ in *. rewrite !length_app. lia.
  - unfold safeContent at 2 3. destruct (30000 <? length_ content)%N eqn:E.
    + unfold safeContent.
      assert (Hl : length_ (slice0 30000 content ++ str "...") = 30003%N).
      { apply N.ltb_lt in E. unfold length_, slice0 in *.
        rewrite length_app, length_take. change (length (str "...")) with 3%nat. lia. }
      rewrite Hl. change (30000 <? 30003)%N with true. cbn iota.
      f_equal. unfold slice0. rewrite take_app_le.
      * apply take_idemp.
      * apply N.ltb_lt in E. unfold length_ in E. rewrite length_take. lia.
    + unfold safeContent. rewrite E. reflexivity.
Qed.

(** With a key, a content step that is rejected or answers no text gives
    the dated note with the empty quiz; a reading of the documents, when
    there is one, is kept up to its first 3,000 code units. *)
Lemma generateNoteSummary_content_failure_witness :
  generateNoteSummary
    (ChatAppHandlers.handleSaveApiKey (str "AIza-demo") env_no_key)
    [] (str "teks dokumen") 1
  = Return (degraded_summary
              (ChatAppHandlers.handleSaveApiKey (str "AIza-demo") env_no_key)
              (str "teks dokumen")).
Proof.
  apply (generateNoteSummary_content_failure
           (ChatAppHandlers.handleSaveApiKey (str "AIza-demo") env_no_key)
           [] (str "teks dokumen") 1 {| apiKey := str "AIza-demo" |}).
  - vm_compute. reflexivity.
  - left. exists Rejected. reflexivity.
Defined.

(** A payload in a json fence that holds no backquote of its own, read by
    the reader of the examples. *)
Lemma parseQuizPayload_fenced_plain_witness :
  parseQuizPayload env_no_key (str "```json" ++ LF ++ sum_payload ++ LF ++ str "```")
  = parseQuizPayload env_no_key sum_payload.
Proof.
  apply (parseQuizPayload_fenced_plain env_no_key sum_payload).
  - apply (bool_decide_unpack _). vm_compute. exact I.
  - vm_compute. reflexivity.
  - vm_compute. reflexivity.
Defined.

End QuizStepMore.

(** *** The clean-up of fences *)

Section Fences.

Import GeminiService Examples.

Lemma remove_fences_skip (k : nat) (s : jsstring) :
  remove_fences k s = remove_fences 0 (drop k s).
Proof.
  revert k. induction s as [|c rest IH]; intros k.
  - destruct k; reflexivity.
  - destruct k as [|k]; [reflexivity|]. cbn [remove_fences drop]. apply IH.
Qed.

Lemma remove_fences_cons (c : N) (rest : jsstring) :
  remove_fences 0 (c :: rest)
  = if startsWith fence_json (c :: rest) then
      match drop 6 rest with
      | 10%N :: _ => remove_fences 0 (drop 7 rest)
      | _ => remove_fences 0 (drop 6 rest)
      end
    else if startsWith fence (c :: rest) then remove_fences 0 (drop 2 rest)
    else c :: remove_fences 0 rest.
Proof.
  cbn [remove_fences].
  rewrite (remove_fences_skip 7 rest), (remove_fences_skip 6 rest),
    (remove_fences_skip 2 rest).
  reflexivity.
Qed.

Lemma startsWith_backquote (p s : jsstring) :
  startsWith (96%N :: p) s = true -> exists s', s = 96%N :: s' /\ startsWith p s' = true.
Proof.
  destruct s as [|c s']; cbn [startsWith]; [discriminate|].
  intros H. apply andb_true_iff in H as [Hc Hp]. apply N.eqb_eq in Hc. subst c. eauto.
Qed.

Lemma startsWith_same (a : N) (p s : jsstring) :
  startsWith (a :: p) (a :: s) = startsWith p s.
Proof. cbn [startsWith]. rewrite N.eqb_refl. reflexivity. Qed.

Lemma fence_json_fence (s : jsstring) :
  startsWith fence_json s = true -> startsWith fence s = true.
Proof.
  change fence_json with (96%N :: 96%N :: 96%N :: str "json").
  change fence with [96%N; 96%N; 96%N].
  intros H.
  apply startsWith_backquote in H as (s1 & -> & H).
  apply startsWith_backquote in H as (s2 & -> & H).
  apply startsWith_backquote in H as (s3 & -> & H).
  reflexivity.
Qed.

Lemma remove_fences_head (s : jsstring) :
  head (remove_fences 0 s) = Some 96%N -> head s = Some 96%N.
Proof.
  destruct s as [|c rest]; [discriminate|]. rewrite remove_fences_cons.
  destruct (startsWith fence_json (c :: rest)) eqn:Ej.
  { intros _. apply fence_json_fence in Ej. change fence with [96%N; 96%N; 96%N] in Ej.
    apply startsWith_backquote in Ej as (s' & [= -> _] & _). reflexivity. }
  destruct (startsWith fence (c :: rest)) eqn:Ef.
  { intros _. change fence with [96%N; 96%N; 96%N] in Ef.
    apply startsWith_backquote in Ef as (s' & [= -> _] & _). reflexivity. }
  exact id.
Qed.

Lemma remove_fences_head2 (s : jsstring) :
  startsWith [96%N; 96%N] (remove_fences 0 s) = true ->
  startsWith [96%N; 96%N] s = true.
Proof.
  destruct s as [|c rest]; [discriminate|]. rewrite remove_fences_cons.
  destruct (startsWith fence_json (c :: rest)) eqn:Ej.
  { intros _. apply fence_json_fence in Ej. change fence with [96%N; 96%N; 96%N] in Ej.
    apply startsWith_backquote in Ej as (s1 & [= -> ->] & Ej).
    apply startsWith_backquote in Ej as (s2 & -> & _). reflexivity. }
  destruct (startsWith fence (c :: rest)) eqn:Ef.
  { intros _. change fence with [96%N; 96%N; 96%N] in Ef.
    apply startsWith_backquote in Ef as (s1 & [= -> ->] & Ef).
    apply startsWith_backquote in Ef as (s2 & -> & _). reflexivity. }
  intros H. apply startsWith_backquote in H as (s1 & [= -> Hs1] & H).
  apply startsWith_backquote in H as (s2 & Hs2 & _).
  assert (Hh : head rest = Some 96%N).
  { apply remove_fences_head. rewrite Hs1, Hs2. reflexivity. }
  destruct rest as [|d rest']; [discriminate|]. injection Hh as ->. reflexivity.
Qed.

Lemma remove_fences_no_fence_upto (n : nat) (s : jsstring) :
  (length s <= n)%nat -> includes fence (remove_fences 0 s) = false.
Proof.
  revert s. induction n as [|n IH]; intros s Hn.
  - destruct s; [reflexivity | simpl in Hn; lia].
  - destruct s as [|c rest]; [reflexivity|]. simpl in Hn.
    rewrite remove_fences_cons.
    destruct (startsWith fence_json (c :: rest)) eqn:Ej.
    { assert (H6 : (length (drop 6 rest) <= n)%nat) by (rewrite length_drop; lia).
      assert (H7 : (length (drop 7 rest) <= n)%nat) by (rewrite length_drop; lia).
      destruct (drop 6 rest) as [|x l]; [reflexivity|].
      destruct (N.eq_dec x 10%N) as [->|Hx]; [apply IH, H7|].
      assert (E : match x with
                  | 10%N => remove_fences 0 (drop 7 rest)
                  | _ => remove_fences 0 (x :: l)
                  end = remove_fences 0 (x :: l)).
      { destruct x as [|p]; [reflexivity|].
        do 4 (destruct p as [p|p|]; try reflexivity). congruence. }
      rewrite E. apply IH, H6. }
    destruct (startsWith fence (c :: rest)) eqn:Ef.
    { apply IH. rewrite length_drop. lia. }
    cbn [includes]. rewrite (IH rest) by lia. rewrite orb_false_r.
    destruct (startsWith fence (c :: remove_fences 0 rest)) eqn:E; [|reflexivity].
    exfalso. change fence with [96%N; 96%N; 96%N] in E, Ef.
    apply startsWith_backquote in E as (s1 & [= -> Hs1] & E). subst s1.
    apply remove_fences_head2 in E.
    rewrite startsWith_same in Ef. congruence.
Qed.

Lemma remove_fences_fixed (s : jsstring) :
  includes fence s = false -> remove_fences 0 s = s.
Proof.
  induction s as [|c rest IH]; [reflexivity|].
  cbn [includes]. intros H. apply orb_false_iff in H as [Hf Hrest].
  rewrite remove_fences_cons.
  destruct (startsWith fence_json (c :: rest)) eqn:Ej.
  { apply fence_json_fence in Ej. congruence. }
  rewrite Hf, (IH Hrest). reflexivity.
Qed.

(** The text handed to the second parsing stage holds no fence at all, so
    that cleaning it again changes nothing; a text without a fence is left
    as it is. *)
Theorem remove_fences_no_fence (s : jsstring) :
  includes fence (remove_fences 0 s) = false
  /\ remove_fences 0 (remove_fences 0 s) = remove_fences 0 s
  /\ (includes fence s = false -> remove_fences 0 s = s).
Proof.
  assert (H : includes fence (remove_fences 0 s) = false)
    by (apply (remove_fences_no_fence_upto (length s)); lia).
  split; [exact H|]. split; [apply remove_fences_fixed, H | apply remove_fences_fixed].
Qed.

Lemma remove_fences_no_fence_witness :
  remove_fences 0 sum_payload = sum_payload.
Proof.
  apply (remove_fences_no_fence sum_payload). vm_compute. reflexivity.
Defined.

End Fences.

(** *** Attachments as data URLs *)

Section DataUrls.

Import GeminiService GeminiChat ChatAppHandlers Examples.

Lemma split_first_comma_app (pre rest : jsstring) :
  Forall (fun c => c <> 44%N) pre ->
  split_first_comma (pre ++ 44%N :: rest) = (pre, Some rest).
Proof.
  induction 1 as [|c pre Hc _ IH]; [reflexivity|].
  cbn [app split_first_comma]. rewrite (proj2 (N.eqb_neq c 44) Hc), IH. reflexivity.
Qed.

Lemma split_first_comma_none (s : jsstring) :
  Forall (fun c => c <> 44%N) s -> split_first_comma s = (s, None).
Proof.
  induction 1 as [|c s Hc _ IH]; [reflexivity|].
  cbn [split_first_comma]. rewrite (proj2 (N.eqb_neq c 44) Hc), IH. reflexivity.
Qed.

Lemma until_semicolon_app (g rest : jsstring) :
  Forall (fun c => c <> 59%N /\ isLineTerminator c = false) g ->
  until_semicolon (g ++ 59%N :: rest) = Some g.
Proof.
  induction 1 as [|c g [Hc Hl] _ IH]; [reflexivity|].
  cbn [app until_semicolon]. rewrite (proj2 (N.eqb_neq c 59) Hc), Hl, IH. reflexivity.
Qed.

Lemma visionFile_of_data_url (mimeType params data : jsstring) :
  mimeType <> [] ->
  Forall (fun c => c <> 44%N) mimeType ->
  Forall (fun c => c <> 59%N /\ isLineTerminator c = false) mimeType ->
  Forall (fun c => c <> 44%N) params ->
  Forall (fun c => c <> 44%N) data ->
  visionFile_of_url (str "data:" ++ mimeType ++ 59%N :: params ++ 44%N :: data)
  = {| mimeType_ := mimeType; data_ := Some data |}.
Proof.
  intros Hne Hm1 Hm2 Hp Hd. unfold visionFile_of_url, split_header_data.
  replace (str "data:" ++ mimeType ++ 59%N :: params ++ 44%N :: data)
    with ((str "data:" ++ mimeType ++ 59%N :: params) ++ 44%N :: data)
    by (rewrite <- !app_assoc; reflexivity).
  rewrite split_first_comma_app.
  - rewrite (split_first_comma_none data Hd). cbn [fst].
    unfold mime_or.
    assert (Hmatch : match_mime (str "data:" ++ mimeType ++ 59%N :: params) = Some mimeType).
    { change (str "data:") with [100%N; 97%N; 116%N; 97%N; 58%N].
      cbn [app match_mime N.eqb Pos.eqb]. rewrite until_semicolon_app by exact Hm2.
      reflexivity. }
    rewrite Hmatch. destruct mimeType; [congruence | reflexivity].
  - apply Forall_app. split; [vm_compute; repeat constructor; discriminate|].
    apply Forall_app. split; [exact Hm1|]. constructor; [discriminate | exact Hp].
Qed.

(** An attachment stored as a data URL and read back: the MIME type and the
    data are those that were stored, for a type without comma, semicolon or
    line terminator and data without comma (base64). A data URL whose type
    carries parameters is read as the bare type. The history of a chat turn
    is read the same way. *)
Theorem data_url_round_trip (mimeType params data : jsstring) :
  mimeType <> [] ->
  Forall (fun c => c <> 44%N) mimeType ->
  Forall (fun c => c <> 59%N /\ isLineTerminator c = false) mimeType ->
  Forall (fun c => c <> 44%N) params ->
  Forall (fun c => c <> 44%N) data ->
  visionFile_of_url (originalFile mimeType data)
  = {| mimeType_ := mimeType; data_ := Some data |}
  /\ visionFile_of_url (str "data:" ++ mimeType ++ 59%N :: params ++ 44%N :: data)
     = {| mimeType_ := mimeType; data_ := Some data |}
  /\ inlineData_of_url (originalFile mimeType data)
     = {| mimeType_ := mimeType; data_ := Some data |}.
Proof.
  intros Hne Hm1 Hm2 Hp Hd.
  assert (H : visionFile_of_url (originalFile mimeType data)
              = {| mimeType_ := mimeType; data_ := Some data |}).
  { unfold originalFile.
    change (str ";base64," ++ data) with (59%N :: str "base64" ++ 44%N :: data).
    apply visionFile_of_data_url; try assumption.
    vm_compute. repeat constructor; discriminate. }
  split; [exact H|]. split; [|exact H].
  apply visionFile_of_data_url; assumption.
Qed.

Lemma data_url_round_trip_witness :
  visionFile_of_url (originalFile (str "image/png") (str "iVBORw0KGgo="))
  = {| mimeType_ := str "image/png"; data_ := Some (str "iVBORw0KGgo=") |}
  /\ visionFile_of_url (str "data:audio/webm;codecs=opus;base64,GkXfo59C")
     = {| mimeType_ := str "audio/webm"; data_ := Some (str "GkXfo59C") |}.
Proof.
  split.
  - apply (data_url_round_trip (str "image/png") [] (str "iVBORw0KGgo=")).
    + discriminate.
    + apply (bool_decide_unpack _). vm_compute. exact I.
    + apply (bool_decide_unpack _). vm_compute. exact I.
    + constructor.
    + apply (bool_decide_unpack _). vm_compute. exact I.
  - apply (data_url_round_trip (str "audio/webm") (str "codecs=opus;base64")
             (str "GkXfo59C")).
    + discriminate.
    + apply (bool_decide_unpack _). vm_compute. exact I.
    + apply (bool_decide_unpack _). vm_compute. exact I.
    + apply (bool_decide_unpack _). vm_compute. exact I.
    + apply (bool_decide_unpack _). vm_compute. exact I.
Defined.

(** A text that is no data URL: without a colon followed by a semicolon the
    type falls back to [image/jpeg], and without a comma there is no data. *)
Theorem visionFile_of_plain_text (url : jsstring) :
  Forall (fun c => c <> 44%N /\ c <> 58%N) url ->
  visionFile_of_url url = {| mimeType_ := str "image/jpeg"; data_ := None |}.
Proof.
  intros H. unfold visionFile_of_url, split_header_data.
  rewrite split_first_comma_none by (eapply Forall_impl; [exact H | intros ? [? ?]; assumption]).
  unfold mime_or.
  assert (Hm : match_mime url = None).
  { induction H as [|c url [_ Hc] _ IH]; [reflexivity|].
    cbn [match_mime]. rewrite (proj2 (N.eqb_neq c 58) Hc). exact IH. }
  rewrite Hm. reflexivity.
Qed.

Lemma visionFile_of_plain_text_witness :
  visionFile_of_url (str "blob-tanpa-awalan")
  = {| mimeType_ := str "image/jpeg"; data_ := None |}.
Proof.
  apply visionFile_of_plain_text. apply (bool_decide_unpack _). vm_compute. exact I.
Defined.

End DataUrls.

(** *** The chat turn *)

Section ChatTurn.

Import GeminiService GeminiChat ChatAppHandlers Examples.

Implicit Types (env : Env) (stream : StreamParameters -> StreamOutcome).

Lemma accumulate_app calls1 calls2 acc u :
  accumulate (calls1 ++ calls2) acc u
  = accumulate calls2 (accumulate calls1 acc u).1 (accumulate calls1 acc u).2.
Proof.
  revert acc u. induction calls1 as [|[t|us] calls1 IH]; intros acc u; simpl.
  - reflexivity.
  - apply IH.
  - apply IH.
Qed.

Lemma accumulate_chunk_callbacks with_onFinish chunk acc u :
  accumulate (chunk_callbacks with_onFinish chunk) acc u
  = (acc ++ default [] (chunk_text chunk),
     match usageMetadata chunk with
     | Some m => if with_onFinish then Some (usage_of m) else u
     | None => u
     end).
Proof.
  unfold chunk_callbacks.
  destruct (chunk_text chunk) as [[|c t]|], (usageMetadata chunk) as [m|],
    with_onFinish; simpl; rewrite ?app_nil_r; reflexivity.
Qed.

Lemma accumulate_text with_onFinish chunks acc u :
  (accumulate (flat_map (chunk_callbacks with_onFinish) chunks) acc u).1
  = acc ++ streamed_text chunks.
Proof.
  revert acc u. induction chunks as [|chunk chunks IH]; intros acc u.
  - simpl. rewrite app_nil_r. reflexivity.
  - cbn [flat_map]. rewrite accumulate_app, accumulate_chunk_callbacks. cbn [fst snd].
    rewrite IH. unfold streamed_text. cbn [map concat]. rewrite app_assoc. reflexivity.
Qed.

Lemma accumulate_usage chunks acc u :
  (accumulate (flat_map (chunk_callbacks true) chunks) acc u).2
  = match last (streamed_usages chunks) with
    | Some us => Some us
    | None => u
    end.
Proof.
  revert acc u. induction chunks as [|chunk chunks IH]; intros acc u.
  - reflexivity.
  - cbn [flat_map]. rewrite accumulate_app, accumulate_chunk_callbacks. cbn [fst snd].
    rewrite IH. unfold streamed_usages. cbn [omap list_omap].
    destruct (usageMetadata chunk) as [m|]; cbn [fmap option_fmap option_map];
      [|reflexivity].
    fold (@omap list _ Chunk Usage (fun c => usage_of <$> usageMetadata c) chunks).
    destruct (omap (fun c => usage_of <$> usageMetadata c) chunks) as [|x l] eqn:E;
      [reflexivity|].
    change (last (usage_of m :: x :: l)) with (last (x :: l)).
    destruct (last (x :: l)) eqn:El; [reflexivity|].
    apply last_None in El. discriminate.
Qed.

Lemma last_Some_or {A} (l : list A) (u : option A) :
  match last l with Some x => Some x | None => None end = last l.
Proof. destruct (last l); reflexivity. Qed.

Lemma accumulate_stream chunks (fail : option (option jsstring)) :
  (accumulate
     (flat_map (chunk_callbacks true) chunks
      ++ match fail with
         | Some message => [onChunk (errorMsg message)]
         | None => []
         end) [] None).1
  = streamed_text chunks
    ++ match fail with
       | Some message => errorMsg message
       | None => []
       end
  /\ (accumulate
        (flat_map (chunk_callbacks true) chunks
         ++ match fail with
            | Some message => [onChunk (errorMsg message)]
            | None => []
            end) [] None).2
     = last (streamed_usages chunks).
Proof.
  pose proof (accumulate_text true chunks [] None) as H1.
  pose proof (accumulate_usage chunks [] None) as H2.
  rewrite (last_Some_or _ None) in H2. cbn [app] in H1.
  destruct fail as [m|].
  - rewrite accumulate_app. cbn [accumulate fst snd]. rewrite H1, H2. auto.
  - rewrite !app_nil_r, H1, H2. auto.
Qed.

Lemma errorMsg_nonempty message : errorMsg message <> [].
Proof.
  unfold errorMsg. destruct message as [m|]; [|discriminate].
  destruct (truthy_string m && includes (str "API key not valid") m); discriminate.
Qed.

(** Without a key the only call is the one that hands over the message
    asking for the key, whatever the turn and the stream; with a key, a
    turn with neither text nor attachment makes no call at all, whatever
    the history and the stream. *)
Theorem streamGeminiResponse_nothing_sent env stream history mode with_onFinish :
  (getApiKey env = None ->
   forall currentText currentImages,
     streamGeminiResponse env stream history currentText currentImages mode with_onFinish
     = [onChunk configuration_required])
  /\ (getApiKey env <> None ->
      streamGeminiResponse env stream history [] [] mode with_onFinish = []).
Proof.
  split.
  - intros H t imgs. unfold streamGeminiResponse, getAIClient. rewrite H. reflexivity.
  - intros H. unfold streamGeminiResponse, getAIClient.
    destruct (getApiKey env) as [k|] eqn:E; [|congruence].
    pose proof (getApiKey_nonempty _ _ E). destruct k; [congruence | reflexivity].
Qed.

Lemma streamGeminiResponse_nothing_sent_witness :
  streamGeminiResponse env_no_key (fun _ => {| delivered := []; failure := None |})
    [] (str "Apa itu fotosintesis?") [] GENERAL true
  = [onChunk configuration_required]
  /\ streamGeminiResponse env_quiz_down
       (fun _ => {| delivered := []; failure := Some None |}) [] [] [] MATH true
     = [].
Proof.
  split.
  - apply (streamGeminiResponse_nothing_sent env_no_key). vm_compute. reflexivity.
  - apply (streamGeminiResponse_nothing_sent env_quiz_down). vm_compute. discriminate.
Defined.

(** With a key and a turn that is not empty, the text the chat application
    accumulates is the texts of the chunks delivered, in their order,
    followed by the error message when the stream fails: it is never empty
    after a failure. The usage it keeps is that of the last chunk that
    carries one. *)
Theorem streamGeminiResponse_accumulated env stream history currentText currentImages
    mode :
  getApiKey env <> None ->
  currentText <> [] \/ currentImages <> [] ->
  let outcome := stream (streamRequest history currentText currentImages mode) in
  let calls :=
    streamGeminiResponse env stream history currentText currentImages mode true in
  (accumulate calls [] None).1
  = streamed_text (delivered outcome)
    ++ match failure outcome with
       | Some message => errorMsg message
       | None => []
       end
  /\ (accumulate calls [] None).2 = last (streamed_usages (delivered outcome))
  /\ (failure outcome <> None -> (accumulate calls [] None).1 <> []).
Proof.
  intros Hkey Hturn outcome calls.
  assert (Hcalls : calls
                   = flat_map (chunk_callbacks true) (delivered outcome)
                     ++ match failure outcome with
                        | Some message => [onChunk (errorMsg message)]
                        | None => []
                        end).
  { unfold calls, streamGeminiResponse, getAIClient.
    destruct (getApiKey env) as [k|] eqn:E; [|congruence].
    pose proof (getApiKey_nonempty _ _ E). destruct k; [congruence|]. simpl.
    unfold currentParts.
    destruct Hturn as [Ht | Hi].
    - destruct currentText; [congruence|]. simpl.
      destruct (map inlinePart currentImages); reflexivity.
    - destruct currentImages; [congruence|]. reflexivity. }
  rewrite Hcalls.
  destruct (accumulate_stream (delivered outcome) (failure outcome)) as [H1 H2].
  rewrite H1, H2. split; [reflexivity|]. split; [reflexivity|].
  intros Hf. destruct (failure outcome) as [m|]; [|congruence].
  intros Happ. apply app_eq_nil in Happ as [_ Hm].
  exact (errorMsg_nonempty _ Hm).
Qed.

Lemma streamGeminiResponse_accumulated_witness :
  (accumulate
     (streamGeminiResponse env_quiz_down
        (fun _ => {| delivered := [ {| chunk_text := Some (str "Foto");
                                       usageMetadata := None |};
                                    {| chunk_text := Some (str "sintesis");
                                       usageMetadata := None |} ];
                     failure := Some (Some (str "API key not valid. Please pass a valid API key.")) |})
        [] (str "Apa itu fotosintesis?") [] GENERAL true)
     [] None).1
  = str "Fotosintesis" ++ invalid_key_error.
Proof.
  rewrite (proj1 (streamGeminiResponse_accumulated env_quiz_down _ []
                    (str "Apa itu fotosintesis?") [] GENERAL
                    ltac:(vm_compute; discriminate) ltac:(left; discriminate))).
  vm_compute. reflexivity.
Defined.

(** The title of a conversation without a session: the first 30 code units
    of the text, or a label of the first attachment when there is no text,
    followed by three dots; it has between 4 and 33 code units. *)
Theorem newSessionTitle_bounds (userText : jsstring) (visionFiles : list InlineData) :
  exists label,
    newSessionTitle userText visionFiles = label ++ str "..."
    /\ label <> []
    /\ (length label <= 30)%nat
    /\ (userText <> [] -> label = slice0 30 userText)
    /\ (userText = [] -> label = fileLabel visionFiles).
Proof.
  unfold newSessionTitle.
  destruct (slice0 30 userText) as [|c l] eqn:E.
  - assert (Hu : userText = []).
    { destruct userText; [reflexivity|]. unfold slice0 in E. discriminate. }
    exists (fileLabel visionFiles). simpl.
    split; [reflexivity|]. split; [|split; [|split; [congruence | reflexivity]]].
    + unfold fileLabel. destruct visionFiles as [|f fs]; [discriminate|].
      repeat match goal with |- context [if ?b then _ else _] => destruct b end;
        discriminate.
    + unfold fileLabel. destruct visionFiles as [|f fs]; [vm_compute; lia|].
      repeat match goal with |- context [if ?b then _ else _] => destruct b end;
        vm_compute; lia.
  - exists (c :: l). split; [reflexivity|]. split; [discriminate|].
    split; [|split; [reflexivity|]].
    + rewrite <- E. unfold slice0. rewrite length_take. lia.
    + intros ->. unfold slice0 in E. discriminate.
Qed.

End ChatTurn.

Lemma newSessionTitle_bounds_witness :
  exists label,
    ChatAppHandlers.newSessionTitle []
      [{| GeminiChat.mimeType_ := str "application/pdf"; GeminiChat.data_ := None |}]
    = label ++ str "..."
    /\ label <> []
    /\ (length label <= 30)%nat
    /\ (@nil N <> [] -> label = slice0 30 [])
    /\ (@nil N = [] ->
        label = ChatAppHandlers.fileLabel
                  [{| GeminiChat.mimeType_ := str "application/pdf";
                      GeminiChat.data_ := None |}]).
Proof.
  exact (newSessionTitle_bounds []
           [{| GeminiChat.mimeType_ := str "application/pdf"; GeminiChat.data_ := None |}]).
Defined.

(** *** Text scraped from a binary document *)

Section BinaryText.

Import GeminiService NoteDetailHandlers Examples.

Lemma scan_bytes_printable view result cur :
  Forall (fun c => isPrintable c = true) result ->
  Forall (fun c => isPrintable c = true) cur ->
  Forall (fun c => isPrintable c = true) (scan_bytes view result cur).1
  /\ Forall (fun c => isPrintable c = true) (scan_bytes view result cur).2.
Proof.
  revert result cur. induction view as [|code view IH]; intros result cur Hr Hc.
  - simpl. auto.
  - cbn [scan_bytes]. destruct (isPrintable code) eqn:E.
    + apply IH; [exact Hr|]. apply Forall_app. split; [exact Hc|]. repeat constructor. exact E.
    + apply IH; [|constructor].
      destruct (4 <? length_ cur)%N; [|exact Hr].
      apply Forall_app. split; [exact Hr|]. apply Forall_app. split; [exact Hc|].
      repeat constructor.
Qed.

Lemma scan_bytes_length view result cur :
  (length (scan_bytes view result cur).1 + length (scan_bytes view result cur).2
   <= length result + length cur + length view)%nat.
Proof.
  revert result cur. induction view as [|code view IH]; intros result cur.
  - simpl. lia.
  - cbn [scan_bytes]. destruct (isPrintable code).
    + etransitivity; [apply IH|]. rewrite length_app. simpl. lia.
    + etransitivity; [apply IH|].
      destruct (4 <? length_ cur)%N; rewrite ?length_app; simpl; lia.
Qed.

Lemma scan_bytes_run run rest result cur :
  Forall (fun c => isPrintable c = true) run ->
  scan_bytes (run ++ rest) result cur = scan_bytes rest result (cur ++ run).
Proof.
  intros H. revert cur. induction H as [|c run Hc _ IH]; intros cur.
  - rewrite app_nil_r. reflexivity.
  - cbn [app scan_bytes]. rewrite Hc, IH, <- app_assoc. reflexivity.
Qed.

Lemma scan_bytes_last run result cur :
  Forall (fun c => isPrintable c = true) run ->
  scan_bytes run result cur = (result, cur ++ run).
Proof.
  intros H. rewrite <- (app_nil_r run) at 1. rewrite (scan_bytes_run run [] _ _ H).
  reflexivity.
Qed.

Lemma scan_bytes_junk junk rest result :
  Forall (fun c => isPrintable c = false) junk ->
  scan_bytes (junk ++ rest) result [] = scan_bytes rest result [].
Proof.
  induction 1 as [|c junk Hc _ IH]; [reflexivity|].
  cbn [app scan_bytes]. rewrite Hc. exact IH.
Qed.

(** What is scraped holds printable ASCII only (blank to tilde, tab, line
    feed, carriage return), is no longer than the document, neither starts
    nor ends with white space, and is empty when the document cannot be
    read. *)
Theorem extractTextFromBinary_output (arrayBuffer : Completion (list N)) :
  Forall (fun c => isPrintable c = true) (extractTextFromBinary arrayBuffer)
  /\ (forall c, head (extractTextFromBinary arrayBuffer) = Some c -> isWhiteSpace c = false)
  /\ (forall c, last (extractTextFromBinary arrayBuffer) = Some c -> isWhiteSpace c = false)
  /\ (forall view, arrayBuffer = Return view ->
        (length (extractTextFromBinary arrayBuffer) <= length view)%nat)
  /\ (forall e, arrayBuffer = Throw e -> extractTextFromBinary arrayBuffer = []).
Proof.
  destruct arrayBuffer as [view|e]; cbn [extractTextFromBinary].
  - destruct (scan_bytes_printable view [] [] ltac:(constructor) ltac:(constructor))
      as [Hr Hc].
    pose proof (scan_bytes_length view [] []) as Hlen.
    destruct (scan_bytes view [] []) as [result cur]. cbn [fst snd] in *.
    split; [|split; [apply trim_ends | split; [apply trim_ends | split]]].
    + apply trim_Forall. destruct (4 <? length_ cur)%N; [|exact Hr].
      apply Forall_app. auto.
    + intros v [= <-]. etransitivity; [apply trim_length|].
      destruct (4 <? length_ cur)%N; rewrite ?length_app; simpl in Hlen; lia.
    + intros e0 H. discriminate.
  - split; [constructor|]. split; [discriminate|]. split; [discriminate|].
    split; [discriminate | reflexivity].
Qed.

Lemma extractTextFromBinary_output_witness :
  (length (extractTextFromBinary (Return (0%N :: str "Halo dunia" ++ [0%N; 255%N])))
   <= length (0%N :: str "Halo dunia" ++ [0%N; 255%N]))%nat
  /\ extractTextFromBinary (Throw Rejected) = [].
Proof.
  split.
  - apply (extractTextFromBinary_output
             (Return (0%N :: str "Halo dunia" ++ [0%N; 255%N]))). reflexivity.
  - apply (extractTextFromBinary_output (Throw Rejected)) with (e := Rejected).
    reflexivity.
Defined.

(** A document of printable bytes only is returned whole, without the white
    space at its ends, when it has more than four bytes, and gives nothing
    otherwise. *)
Theorem extractTextFromBinary_text (view : list N) :
  Forall (fun c => isPrintable c = true) view ->
  extractTextFromBinary (Return view)
  = if (4 <? length_ view)%N then trim view else [].
Proof.
  intros H. cbn [extractTextFromBinary].
  rewrite (scan_bytes_last view [] [] H).
  cbn [app]. destruct (4 <? length_ view)%N; reflexivity.
Qed.

Lemma extractTextFromBinary_text_witness :
  extractTextFromBinary (Return (str " Bab 1: Sel ")) = str "Bab 1: Sel"
  /\ extractTextFromBinary (Return (str "Sel")) = [].
Proof.
  split.
  - etransitivity.
    + apply (extractTextFromBinary_text (str " Bab 1: Sel ")).
      apply (bool_decide_unpack _). vm_compute. exact I.
    + vm_compute. reflexivity.
  - etransitivity.
    + apply (extractTextFromBinary_text (str "Sel")).
      apply (bool_decide_unpack _). vm_compute. exact I.
    + vm_compute. reflexivity.
Defined.

(** Two runs of printable bytes with bytes that are not printable between
    them: a run of more than four bytes is kept, a shorter one is dropped,
    and the bytes between two runs leave one blank after the first. *)
Theorem extractTextFromBinary_runs (run1 junk run2 : list N) :
  Forall (fun c => isPrintable c = true) run1 ->
  Forall (fun c => isPrintable c = true) run2 ->
  Forall (fun c => isPrintable c = false) junk ->
  junk <> [] ->
  extractTextFromBinary (Return (run1 ++ junk ++ run2))
  = trim ((if (4 <? length_ run1)%N then run1 ++ str " " else [])
          ++ (if (4 <? length_ run2)%N then run2 else [])).
Proof.
  intros H1 H2 Hj Hne. cbn [extractTextFromBinary].
  rewrite (scan_bytes_run run1 _ [] [] H1). cbn [app].
  destruct junk as [|j junk]; [congruence|]. inversion Hj as [|? ? Hj0 Hj']; subst.
  cbn [app scan_bytes]. rewrite Hj0.
  rewrite (scan_bytes_junk junk run2 _ Hj').
  rewrite (scan_bytes_last run2 _ [] H2). cbn [app].
  destruct (4 <? length_ run1)%N, (4 <? length_ run2)%N;
    rewrite ?app_nil_r; reflexivity.
Qed.

Lemma extractTextFromBinary_runs_witness :
  extractTextFromBinary
    (Return (str "Judul Bab" ++ [0%N; 1%N; 200%N] ++ str "abc"))
  = str "Judul Bab".
Proof.
  etransitivity.
  - apply (extractTextFromBinary_runs (str "Judul Bab") [0%N; 1%N; 200%N] (str "abc")).
    + apply (bool_decide_unpack _). vm_compute. exact I.
    + apply (bool_decide_unpack _). vm_compute. exact I.
    + apply (bool_decide_unpack _). vm_compute. exact I.
    + discriminate.
  - vm_compute. reflexivity.
Defined.

End BinaryText.

(** *** The content shown on the note page *)

Section FormattedContent.

Import NoteDetailHandlers Examples.

Lemma has_escape_cons (x c : N) (t : jsstring) :
  has_escape x (c :: t)
  = ((92 =? c)%N && match t with d :: _ => (x =? d)%N | [] => false end)
    || has_escape x t.
Proof.
  unfold has_escape. cbn [includes startsWith]. f_equal.
  destruct t as [|d t']; [reflexivity|]. cbn [startsWith].
  rewrite andb_true_r. reflexivity.
Qed.

Lemma has_escape_plain (x : N) (s : jsstring) :
  Forall (fun c => c <> 92%N) s -> has_escape x s = false.
Proof.
  induction 1 as [|c s Hc _ IH]; [reflexivity|].
  rewrite has_escape_cons, IH.
  rewrite (proj2 (N.eqb_neq 92 c)) by congruence. reflexivity.
Qed.

Lemma has_escape_app (x : N) (a b : jsstring) :
  has_escape x a = false -> has_escape x b = false -> last a <> Some 92%N ->
  has_escape x (a ++ b) = false.
Proof.
  induction a as [|c a IH]; intros Ha Hb Hl; [exact Hb|].
  cbn [app]. rewrite has_escape_cons in Ha |- *.
  apply orb_false_iff in Ha as [Hc Ha].
  rewrite IH; [|exact Ha | exact Hb |].
  - rewrite orb_false_r. destruct a as [|d a']; [|exact Hc].
    cbn [app]. simpl in Hl.
    rewrite (proj2 (N.eqb_neq 92 c)) by congruence. reflexivity.
  - destruct a as [|d a']; [discriminate|]. exact Hl.
Qed.

Lemma replace_escape_cons2 (e : N) (by_ : jsstring) (c d : N) (rest : jsstring) :
  replace_escape e by_ (c :: d :: rest)
  = if (c =? 92)%N && (d =? e)%N then by_ ++ replace_escape e by_ rest
    else c :: replace_escape e by_ (d :: rest).
Proof. reflexivity. Qed.

Lemma replace_escape_fixed (e : N) (by_ s : jsstring) :
  has_escape e s = false -> replace_escape e by_ s = s.
Proof.
  induction s as [|c t IH]; [reflexivity|].
  rewrite has_escape_cons. intros H. apply orb_false_iff in H as [Hc Ht].
  destruct t as [|d rest]; [reflexivity|].
  rewrite replace_escape_cons2.
  rewrite (N.eqb_sym c 92), (N.eqb_sym d e), Hc.
  f_equal. exact (IH Ht).
Qed.

Lemma replace_escape_head (e b0 : N) (by' : jsstring) (d : N) (rest : jsstring) :
  exists h tl,
    replace_escape e (b0 :: by') (d :: rest) = h :: tl /\ (h = d \/ h = b0).
Proof.
  destruct rest as [|d' rest']; [exists d, []; auto|].
  rewrite replace_escape_cons2. destruct ((d =? 92)%N && (d' =? e)%N).
  - eexists b0, _. split; [reflexivity | auto].
  - eexists d, _. split; [reflexivity | auto].
Qed.

Lemma replace_escape_no_escape (e b0 : N) (by' : jsstring) (x : N) :
  Forall (fun c => c <> 92%N) (b0 :: by') -> b0 <> x ->
  forall (n : nat) (s : jsstring),
    (length s <= n)%nat ->
    x = e \/ has_escape x s = false ->
    has_escape x (replace_escape e (b0 :: by') s) = false.
Proof.
  intros Hby Hb0. induction n as [|n IH]; intros s Hn Hx.
  - destruct s; [reflexivity | simpl in Hn; lia].
  - destruct s as [|c [|d rest]]; [reflexivity | |].
    + cbn [replace_escape]. rewrite has_escape_cons. rewrite andb_false_r. reflexivity.
    + simpl in Hn. rewrite replace_escape_cons2.
      destruct ((c =? 92)%N && (d =? e)%N) eqn:Em.
      * apply has_escape_app.
        -- apply has_escape_plain, Hby.
        -- apply IH; [lia|]. destruct Hx as [Hx | Hx]; [auto|]. right.
           rewrite !has_escape_cons in Hx.
           apply orb_false_iff in Hx as [_ Hx]. apply orb_false_iff in Hx as [_ Hx].
           exact Hx.
        -- intros Hl. apply last_Some in Hl as (l' & Hl).
           rewrite Hl in Hby. apply Forall_app in Hby as [_ Hby].
           inversion Hby. congruence.
      * rewrite has_escape_cons.
        rewrite (IH (d :: rest)); [|simpl; lia|].
        -- rewrite orb_false_r.
           destruct (replace_escape_head e b0 by' d rest) as (h & tl & -> & Hh).
           destruct (N.eqb_spec 92 c) as [<-|]; [|reflexivity]. cbn [andb].
           apply N.eqb_neq. destruct Hh as [-> | ->]; [|congruence].
           destruct Hx as [-> | Hx].
           ++ rewrite N.eqb_refl in Em. cbn [andb] in Em.
              apply N.eqb_neq in Em. congruence.
           ++ rewrite has_escape_cons in Hx. apply orb_false_iff in Hx as [Hx _].
              rewrite N.eqb_refl in Hx. cbn [andb] in Hx. apply N.eqb_neq in Hx. exact Hx.
        -- destruct Hx as [Hx | Hx]; [auto|]. right.
           rewrite has_escape_cons in Hx. apply orb_false_iff in Hx as [_ Hx]. exact Hx.
Qed.

Lemma replace_escape_length (e : N) (by_ : jsstring) :
  (length by_ <= 2)%nat ->
  forall (n : nat) (s : jsstring),
    (length s <= n)%nat -> (length (replace_escape e by_ s) <= length s)%nat.
Proof.
  intros Hby. induction n as [|n IH]; intros s Hn.
  - destruct s; [simpl; lia | simpl in Hn; lia].
  - destruct s as [|c [|d rest]]; [simpl; lia | simpl; lia |].
    simpl in Hn. rewrite replace_escape_cons2.
    destruct ((c =? 92)%N && (d =? e)%N).
    + rewrite length_app. pose proof (IH rest ltac:(lia)). simpl. lia.
    + pose proof (IH (d :: rest) ltac:(simpl; lia)). simpl in *. lia.
Qed.

(** What the page shows never holds a backslash followed by [n] or by [t],
    so that formatting it again changes nothing; it is no longer than the
    stored content, and a content without a backslash is shown as it is. *)
Theorem formattedContent_no_escape (note_content : jsstring) :
  has_escape 110 (formattedContent note_content) = false
  /\ has_escape 116 (formattedContent note_content) = false
  /\ formattedContent (formattedContent note_content) = formattedContent note_content
  /\ (length (formattedContent note_content) <= length note_content)%nat
  /\ (Forall (fun c => c <> 92%N) note_content ->
      formattedContent note_content = note_content).
Proof.
  assert (Hn : forall s, has_escape 110 (replace_escape 110 [10%N] s) = false).
  { intros s. apply (replace_escape_no_escape 110 10 [] 110) with (n := length s);
      [repeat constructor; discriminate | discriminate | lia | auto]. }
  assert (H1 : has_escape 110 (formattedContent note_content) = false).
  { unfold formattedContent. destruct (truthy_string note_content); [|reflexivity].
    cbn [negb]. change (str "  ") with [32%N; 32%N].
    apply (replace_escape_no_escape 116 32 [32%N] 110)
      with (n := length (replace_escape 110 [10%N] note_content));
      [repeat constructor; discriminate | discriminate | lia | right; apply Hn]. }
  assert (H2 : has_escape 116 (formattedContent note_content) = false).
  { unfold formattedContent. destruct (truthy_string note_content); [|reflexivity].
    cbn [negb]. change (str "  ") with [32%N; 32%N].
    apply (replace_escape_no_escape 116 32 [32%N] 116)
      with (n := length (replace_escape 110 [10%N] note_content));
      [repeat constructor; discriminate | discriminate | lia | auto]. }
  assert (Hfix : forall s, has_escape 110 s = false -> has_escape 116 s = false ->
                           formattedContent s = s).
  { intros s A B. unfold formattedContent. destruct s as [|c s]; [reflexivity|].
    change (truthy_string (c :: s)) with true. cbn [negb].
    rewrite (replace_escape_fixed 110 _ _ A). apply replace_escape_fixed, B. }
  split; [exact H1|]. split; [exact H2|]. split; [|split].
  - apply Hfix; assumption.
  - unfold formattedContent. destruct (truthy_string note_content); cbn [negb].
    + etransitivity.
      * apply (replace_escape_length 116 (str "  "))
          with (n := length (replace_escape 110 [10%N] note_content));
          [vm_compute; lia | lia].
      * apply (replace_escape_length 110 [10%N]) with (n := length note_content);
          [simpl; lia | lia].
    + simpl. lia.
  - intros Hplain. apply Hfix; apply has_escape_plain, Hplain.
Qed.

Lemma formattedContent_no_escape_witness :
  formattedContent (str "Bab 1: Sel adalah unit kehidupan.")
  = str "Bab 1: Sel adalah unit kehidupan.".
Proof.
  apply (formattedContent_no_escape (str "Bab 1: Sel adalah unit kehidupan.")).
  apply (bool_decide_unpack _). vm_compute. exact I.
Defined.

End FormattedContent.

(** *** Answering and resetting a question *)

Section QuizAnswers.

Import NoteDetailPage NoteDetailHandlers Examples.

Implicit Types (quiz : list QuizQuestion) (quizAnswers : gmap nat jsstring).

(** The submissions read the answers at the positions of the scored entries
    only. *)
Lemma mcqSubmissions_ext_scored quizAnswers quizAnswers' quiz idx :
  (forall j q, quiz !! j = Some q -> isMCQ q = true ->
               quizAnswers' !! (idx + j)%nat = quizAnswers !! (idx + j)%nat) ->
  mcqSubmissions quizAnswers' quiz idx = mcqSubmissions quizAnswers quiz idx.
Proof.
  revert idx. induction quiz as [|q rest IH]; intros idx H; [reflexivity|].
  cbn [mcqSubmissions]. rewrite (IH (S idx)).
  - destruct (isMCQ q) eqn:E; [|reflexivity].
    pose proof (H 0%nat q eq_refl E) as H0. rewrite Nat.add_0_r in H0.
    rewrite H0. reflexivity.
  - intros j q' Hj Hq. replace (S idx + j)%nat with (idx + S j)%nat by lia.
    apply (H (S j) q'); assumption.
Qed.

Lemma mcqSubmissions_unscored_position quizAnswers quizAnswers' quiz i :
  from_option isMCQ false (quiz !! i) = false ->
  (forall j, j <> i -> quizAnswers' !! j = quizAnswers !! j) ->
  mcqSubmissions quizAnswers' quiz 0 = mcqSubmissions quizAnswers quiz 0.
Proof.
  intros Hi Hother. apply mcqSubmissions_ext_scored. intros j q Hj Hq.
  apply Hother. cbn [Nat.add]. intros ->. rewrite Hj in Hi. simpl in Hi. congruence.
Qed.

(** An option selected, or an answer removed, at a position that holds no
    scored entry (an essay question, or no entry at all) leaves the score
    of the essay revision as it was. *)
Theorem handleAnswer_unscored_entry showResults quiz quizAnswers i option_ :
  from_option isMCQ false (quiz !! i) = false ->
  EssayRevision.calculateScore (Some quiz) (handleAnswer showResults i option_ quizAnswers)
  = EssayRevision.calculateScore (Some quiz) quizAnswers
  /\ EssayRevision.calculateScore (Some quiz) (handleResetQuestion i quizAnswers)
     = EssayRevision.calculateScore (Some quiz) quizAnswers.
Proof.
  intros Hi. rewrite !EssayRevision_score_submissions. split; f_equal.
  - unfold handleAnswer. destruct showResults; [reflexivity|].
    apply (mcqSubmissions_unscored_position _ _ _ i Hi).
    intros j Hj. apply lookup_insert_ne. congruence.
  - unfold handleResetQuestion.
    apply (mcqSubmissions_unscored_position _ _ _ i Hi).
    intros j Hj. apply lookup_delete_ne. congruence.
Qed.

Lemma handleAnswer_unscored_entry_witness :
  EssayRevision.calculateScore (Some [sum_question; essay_question])
    (handleAnswer false 1 (str "fotosintesis") (first_answers 1))
  = EssayRevision.calculateScore (Some [sum_question; essay_question]) (first_answers 1).
Proof.
  apply (handleAnswer_unscored_entry false [sum_question; essay_question]
           (first_answers 1) 1 (str "fotosintesis")).
  reflexivity.
Defined.

Lemma correct_insert quizAnswers quiz idx j q o :
  quiz !! j = Some q -> isMCQ q = true ->
  (length (filter isCorrect (mcqSubmissions (<[(idx + j)%nat := o]> quizAnswers) quiz idx))
   + (if decide (quizAnswers !! (idx + j)%nat = Some (answer q)) then 1 else 0)
   = length (filter isCorrect (mcqSubmissions quizAnswers quiz idx))
     + (if decide (o = answer q) then 1 else 0))%nat.
Proof.
  revert idx j. induction quiz as [|a rest IH]; intros idx j Hj Hq; [discriminate|].
  destruct j as [|j'].
  - injection Hj as ->. cbn [mcqSubmissions]. rewrite Hq, Nat.add_0_r.
    rewrite (mcqSubmissions_ext quizAnswers (<[idx := o]> quizAnswers) rest (S idx) (S idx)).
    2:{ intros k _. apply lookup_insert_ne. lia. }
    rewrite lookup_insert_eq, !filter_cons.
    repeat case_decide; unfold isCorrect in *; cbn [fst snd length] in *;
      try lia; congruence.
  - cbn [lookup list_lookup] in Hj. cbn [mcqSubmissions].
    replace (idx + S j')%nat with (S idx + j')%nat by lia.
    pose proof (IH (S idx) j' Hj Hq) as IH'.
    destruct (isMCQ a); [|exact IH'].
    rewrite lookup_insert_ne by lia. rewrite !filter_cons.
    destruct (decide (isCorrect (a, quizAnswers !! idx))); cbn [length]; lia.
Qed.

(** Selecting the right option of a scored entry that was not rightly
    answered before raises the number of right answers the loop of the essay
    revision counts by one, and leaves the number of scored entries. *)
Theorem handleAnswer_right_answer quiz quizAnswers i q :
  quiz !! i = Some q -> isMCQ q = true -> quizAnswers !! i <> Some (answer q) ->
  EssayRevision.forEach_score (handleAnswer false i (answer q) quizAnswers) quiz 0 0 0
  = (S (EssayRevision.forEach_score quizAnswers quiz 0 0 0).1,
     (EssayRevision.forEach_score quizAnswers quiz 0 0 0).2).
Proof.
  intros Hi Hq Hno. rewrite !forEach_score_submissions. cbn [fst snd Nat.add].
  rewrite !mcqSubmissions_length. f_equal.
  pose proof (correct_insert quizAnswers quiz 0 i q (answer q) Hi Hq) as H.
  cbn [Nat.add] in H. unfold handleAnswer.
  destruct (decide (quizAnswers !! i = Some (answer q))); [contradiction|].
  destruct (decide (answer q = answer q)); [|contradiction]. lia.
Qed.

Lemma handleAnswer_right_answer_witness :
  EssayRevision.forEach_score
    (handleAnswer false 1 (answer sum_question) (first_answers 1))
    [sum_question; sum_question; essay_question] 0 0 0
  = (2%nat, 2%nat).
Proof.
  etransitivity.
  - apply (handleAnswer_right_answer [sum_question; sum_question; essay_question]
             (first_answers 1) 1 sum_question); [reflexivity | reflexivity |].
    vm_compute. discriminate.
  - vm_compute. reflexivity.
Defined.

(** Resetting a question just answered gives back the answers there were,
    when the question had no answer; selecting a second option replaces the
    first; and once the results are shown a selection changes nothing. *)
Theorem handleResetQuestion_handleAnswer quizAnswers i option_ :
  quizAnswers !! i = None ->
  handleResetQuestion i (handleAnswer false i option_ quizAnswers) = quizAnswers
  /\ (forall option', handleAnswer false i option' (handleAnswer false i option_ quizAnswers)
                      = handleAnswer false i option' quizAnswers)
  /\ handleAnswer true i option_ quizAnswers = quizAnswers.
Proof.
  intros Hi. unfold handleResetQuestion, handleAnswer. split; [|split].
  - apply delete_insert_id, Hi.
  - intros option'. apply insert_insert_eq.
  - reflexivity.
Qed.

Lemma handleResetQuestion_handleAnswer_witness :
  handleResetQuestion 1 (handleAnswer false 1 (str "4") (first_answers 1))
  = first_answers 1.
Proof.
  apply (handleResetQuestion_handleAnswer (first_answers 1) 1 (str "4")).
  vm_compute. reflexivity.
Defined.

(** *** The range of the score *)

Lemma forEach_correct_bounds quizAnswers quiz idx correct :
  (correct <= forEach_correct quizAnswers quiz idx correct <= correct + length quiz)%nat.
Proof.
  revert idx correct. induction quiz as [|q rest IH]; intros idx correct.
  - simpl. lia.
  - cbn [forEach_correct length].
    destruct (answeredCorrectly quizAnswers idx q).
    + pose proof (IH (S idx) (S correct)). lia.
    + pose proof (IH (S idx) correct). lia.
Qed.

Lemma round_div_percentage c t :
  (0 < t < 40)%nat -> (c <= t)%nat ->
  0 <= round_div (100 * Z.of_nat c) (Z.of_nat t) <= 100
  /\ (round_div (100 * Z.of_nat c) (Z.of_nat t) = 100 <-> c = t)
  /\ (round_div (100 * Z.of_nat c) (Z.of_nat t) = 0 <-> c = 0%nat).
Proof.
  intros Ht Hc.
  pose proof (round_div_nearest (100 * Z.of_nat c) (Z.of_nat t) ltac:(lia)) as H.
  set (p := round_div (100 * Z.of_nat c) (Z.of_nat t)) in *.
  assert (Hp0 : 0 <= p) by nia.
  assert (Hp1 : p <= 100) by nia.
  split; [lia|]. split; split; intros E.
  - rewrite E in H. lia.
  - subst c. assert (100 <= p) by nia. lia.
  - rewrite E in H. lia.
  - subst c. assert (p < 1) by nia. lia.
Qed.

(** With fewer than forty scored entries the score of the essay revision is
    a whole number from 0 to 100; it is 100 exactly when there is a scored
    entry and every scored entry is rightly answered, and 0 exactly when none
    is. *)
Theorem EssayRevision_score_range quiz quizAnswers (c t : nat) :
  EssayRevision.forEach_score quizAnswers quiz 0 0 0 = (c, t) ->
  (t < 40)%nat ->
  exists p : Z,
    EssayRevision.calculateScore (Some quiz) quizAnswers = Int p
    /\ 0 <= p <= 100
    /\ (p = 100 <-> (0 < t)%nat /\ c = t)
    /\ (p = 0 <-> c = 0%nat).
Proof.
  intros Hloop Ht. unfold EssayRevision.calculateScore. rewrite Hloop.
  rewrite forEach_score_submissions in Hloop. injection Hloop as Hc Htot.
  cbn [Nat.add] in Hc, Htot.
  assert (Hle : (c <= t)%nat).
  { subst c t. apply length_filter. }
  destruct (Nat.eqb_spec t 0) as [E | E].
  - exists 0. split; [reflexivity|]. split; [lia|]. split; split; intros; lia.
  - rewrite round_percentage_exact by lia. eexists. split; [reflexivity|].
    destruct (round_div_percentage c t ltac:(lia) Hle) as (H1 & H2 & H3).
    split; [exact H1|]. split; [|exact H3].
    rewrite H2. split; [intros ->; lia | tauto].
Qed.

Lemma EssayRevision_score_range_witness :
  exists p : Z,
    EssayRevision.calculateScore (Some [sum_question; essay_question; sum_question])
                                 (first_answers 1) = Int p
    /\ 0 <= p <= 100
    /\ (p = 100 <-> (0 < 2)%nat /\ 1%nat = 2%nat)
    /\ (p = 0 <-> 1%nat = 0%nat).
Proof.
  apply (EssayRevision_score_range [sum_question; essay_question; sum_question]
           (first_answers 1) 1 2); [vm_compute; reflexivity | lia].
Defined.

(** The page before the essay revision, and the chat bubble, divide by the
    number of entries: an empty quiz scores NaN, and a quiz of one to
    thirty-nine entries a whole number from 0 to 100. *)
Theorem calculateScore_range quiz quizAnswers :
  calculateScore (Some []) quizAnswers = NaN
  /\ ChatBubble.score [] quizAnswers = NaN
  /\ ((0 < length quiz < 40)%nat ->
      exists p : Z,
        calculateScore (Some quiz) quizAnswers = Int p
        /\ ChatBubble.score quiz quizAnswers = Int p
        /\ 0 <= p <= 100).
Proof.
  split; [vm_compute; reflexivity|]. split; [vm_compute; reflexivity|].
  intros Hlen. unfold ChatBubble.score, calculateScore.
  pose proof (forEach_correct_bounds quizAnswers quiz 0 0) as Hb.
  rewrite round_percentage_exact by lia.
  eexists. split; [reflexivity|]. split; [reflexivity|].
  apply round_div_percentage; lia.
Qed.

Lemma calculateScore_range_witness :
  exists p : Z,
    calculateScore (Some quiz10) answers7 = Int p
    /\ ChatBubble.score quiz10 answers7 = Int p
    /\ 0 <= p <= 100.
Proof.
  apply (calculateScore_range quiz10 answers7). vm_compute. lia.
Defined.

End QuizAnswers.

(** *** The two scoring revisions at a quiz of ten entries *)

Section ScoreExamples.

Import NoteDetailPage Examples.

Lemma EssayRevision_score_specified_witness :
  EssayRevision.calculateScore (Some quiz10) answers7 = specified_score quiz10 answers7.
Proof.
  apply (EssayRevision_score_specified quiz10 answers7). vm_compute. lia.
Defined.

Lemma calculateScore_all_mcq_witness :
  calculateScore (Some quiz10) answers7
  = EssayRevision.calculateScore (Some quiz10) answers7.
Proof.
  apply (calculateScore_all_mcq quiz10 answers7).
  - apply (bool_decide_unpack _). vm_compute. exact I.
  - discriminate.
Defined.

End ScoreExamples.
